(** * Medical_Agent/main.py: the two retrieval routines

    A shallow embedding of [retrieve_medical_data] and
    [get_nearby_pharmacies] of [Medical_Agent/main.py], and the
    properties of its specification; then the button action of the script,
    which calls the two routines, and further properties of the three.

    Both routines are glue around three external services: the
    DuckDuckGo text search ([DDGS.text]), the HTTP page fetch
    ([requests.get]) and the HTML paragraph extraction
    ([BeautifulSoup(...).find_all("p")]).  The services are parameters of
    the development; every call of a routine to the outside world is
    recorded in a trace, and a service answers as a function of the trace
    so far.  A stub that fails on its first two calls and succeeds on the
    third is therefore one particular service.

    Conventions of the embedding:
    - a Python [str] is a [string]; one character of the model stands for
      one character of the Python string;
    - a Python [int] is a [Z];
    - the result records of the search service are Python dictionaries with
      string keys: [gmap string string];
    - Python exceptions are the constructors of [exn]; all of them derive
      from [Exception], which is what both routines catch. *)

From stdpp Require Import base numbers strings gmap list list_numbers.

Local Open Scope Z_scope.

(** ** Python values and exceptions *)

Abbreviation record := (gmap string string).

Inductive exn : Type :=
| DuckDuckGoSearchException (msg : string)
| RequestException (msg : string)
| ParserRejectedMarkup (msg : string)
| KeyError (key : string)
| ValueError (msg : string)
| OverflowError (msg : string)
| OSError (msg : string).

Inductive result (A : Type) : Type :=
| Return (a : A)
| Raise (e : exn).

Arguments Return {A} a.
Arguments Raise {A} e.

(** ** The outside world *)

Inductive event : Type :=
| Search (query : string) (max_results : Z)
| Get (url : string) (timeout : Z)
| Sleep (secs : Z).

Definition trace := list event.

Record services : Type := {
  (** [ddgs.text(query, max_results=n)] *)
  search_service : trace -> string -> Z -> result (list record);
  (** [requests.get(url, timeout=t).text] *)
  http_fetch : trace -> string -> Z -> result string;
  (** [[p.get_text() for p in BeautifulSoup(body, "html.parser").find_all("p")]] *)
  html_paragraphs : string -> result (list string);
  (** the sleep of the platform, for a duration [time.sleep] has accepted
      and that is longer than every platform must support *)
  os_sleep : Z -> result unit
}.

(** The searches and the sleeps of a trace, in order. *)
Definition searches (t : trace) : list (string * Z) :=
  omap (fun ev => match ev with Search q n => Some (q, n) | _ => None end) t.

Definition sleeps (t : trace) : list Z :=
  omap (fun ev => match ev with Sleep d => Some d | _ => None end) t.

(** ** Computations: a trace is threaded, an exception stops the run *)

Definition M (A : Type) : Type := trace -> result A * trace.

Definition ret {A} (a : A) : M A := fun h => (Return a, h).

Definition bind {A B} (m : M A) (k : A -> M B) : M B :=
  fun h =>
    match m h with
    | (Return a, h') => k a h'
    | (Raise e, h') => (Raise e, h')
    end.

Definition lift {A} (r : result A) : M A := fun h => (r, h).

(** [try: m  except Exception as e: handler e] *)
Definition try_except {A} (m : M A) (handler : exn -> M A) : M A :=
  fun h =>
    match m h with
    | (Return a, h') => (Return a, h')
    | (Raise e, h') => handler e h'
    end.

Notation "x <- m ;; k" := (bind m (fun x => k))
  (at level 100, m at next level, right associativity).

(** ** Python primitives *)

(** [d[key]] *)
Definition getitem (d : record) (key : string) : result string :=
  match d !! key with
  | Some v => Return v
  | None => Raise (KeyError key)
  end.

(** [key in d] *)
Definition contains_key (key : string) (d : record) : bool :=
  match d !! key with
  | Some _ => true
  | None => false
  end.

(** [sub in s] on strings *)
Definition str_contains (sub s : string) : bool :=
  match String.index 0 sub s with
  | Some _ => true
  | None => false
  end.

(** truth value of a string: [if text:] *)
Definition truthy (s : string) : bool :=
  match s with
  | EmptyString => false
  | String _ _ => true
  end.

(** [s[:n]] *)
Definition slice_to (n : nat) (s : string) : string := String.substring 0 n s.

(** [sep.join(parts)] *)
Definition join (sep : string) (parts : list string) : string :=
  String.concat sep parts.

(** [range(n)] *)
Definition range (n : Z) : list Z := seqZ 0 n.

Definition newline : Ascii.ascii := Ascii.ascii_of_nat 10.

(** The longest duration, in seconds, whose count of nanoseconds fits in 64
    bits: [(2^63 - 1) / 10^9]. *)
Definition pytime_max_secs : Z := 9223372036.

(** The longest duration, in seconds, that every platform sleeps: 31 days,
    the timeout POSIX requires [select] to support (a Windows wait takes
    up to [2^32] milliseconds, which is longer). *)
Definition portable_sleep_max : Z := 2678400.

(** The separator ["\n\n"]. *)
Definition blank_line : string := String newline (String newline EmptyString).

Section Routines.

Context (env : services).

(** ** External calls *)

Definition ddgs_text (query : string) (max_results : Z) : M (list record) :=
  fun h => (search_service env h query max_results, h ++ [Search query max_results]).

Definition requests_get (url : string) (timeout : Z) : M string :=
  fun h => (http_fetch env h url timeout, h ++ [Get url timeout]).

(** What [time.sleep(secs)] does with an integer duration.  The duration
    is first converted to a 64-bit count of nanoseconds, which overflows
    beyond [pytime_max_secs] seconds in either direction; then a negative
    duration is rejected; a duration of at most [portable_sleep_max] is
    slept; a longer one is passed to the platform, which may refuse it. *)
Definition sleep_outcome (secs : Z) : result unit :=
  if (secs <? - pytime_max_secs) || (pytime_max_secs <? secs)
  then Raise (OverflowError "timestamp too large to convert to C _PyTime_t")
  else if secs <? 0 then Raise (ValueError "sleep length must be non-negative")
  else if secs <=? portable_sleep_max then Return tt
  else os_sleep env secs.

(** [time.sleep(secs)] *)
Definition time_sleep (secs : Z) : M unit :=
  fun h =>
    match sleep_outcome secs with
    | Return _ => (Return tt, h ++ [Sleep secs])
    | Raise e => (Raise e, h)
    end.

(** ** [retrieve_medical_data] (lines 81-96) *)

Definition site_filter : string :=
  " site:mayoclinic.org OR site:medlineplus.gov OR site:who.int".

(** The body of the [try] block, lines 87-93. *)
Definition fetch_excerpt (res : record) (docs sources : list string)
  : M (list string * list string) :=
  url <- lift (getitem res "href") ;;
  page <- requests_get url 5 ;;
  paragraphs <- lift (html_paragraphs env page) ;;
  let text := join " " paragraphs in
  if truthy text
  then ret (docs ++ [slice_to 2000 text], sources ++ [url])
  else ret (docs, sources).

(** One iteration of the loop: [except Exception: continue]. *)
Definition visit_result (res : record) (acc : list string * list string)
  : M (list string * list string) :=
  try_except (fetch_excerpt res acc.1 acc.2) (fun _ => ret acc).

(** [for res in results: ...] *)
Fixpoint for_results (results : list record) (acc : list string * list string)
  : M (list string * list string) :=
  match results with
  | [] => ret acc
  | res :: rest => acc' <- visit_result res acc ;; for_results rest acc'
  end.

(** The routine up to its [return]: the lists [docs] and [sources]. *)
Definition retrieve_docs (query : string) : M (list string * list string) :=
  results <- ddgs_text (query +:+ site_filter) 3 ;;
  for_results results ([], []).

Definition retrieve_medical_data (query : string) : M (string * list string) :=
  acc <- retrieve_docs query ;;
  ret (join blank_line acc.1, acc.2).

(** ** [get_nearby_pharmacies] (lines 99-113) *)

(** [[(r["title"], r["href"]) for r in results if "href" in r]] *)
Fixpoint entries (results : list record) : result (list (string * string)) :=
  match results with
  | [] => Return []
  | r :: rest =>
      if contains_key "href" r then
        match getitem r "title" with
        | Raise e => Raise e
        | Return title =>
            match getitem r "href" with
            | Raise e => Raise e
            | Return href =>
                match entries rest with
                | Raise e => Raise e
                | Return tl => Return ((title, href) :: tl)
                end
            end
        end
      else entries rest
  end.

(** How one iteration of the retry loop ends. *)
Inductive control : Type :=
| Returns (v : list (string * string))
| Continue
| Break.

Definition ratelimit_marker : string := "202 Ratelimit".

(** The body of the [try] block, lines 103-105. *)
Definition search_pharmacies (query : string) : M control :=
  results <- ddgs_text query 5 ;;
  v <- lift (entries results) ;;
  ret (Returns v).

(** The two [except] clauses, lines 106-112. *)
Definition on_exception (delay attempt : Z) (e : exn) : M control :=
  match e with
  | DuckDuckGoSearchException msg =>
      if str_contains ratelimit_marker msg
      then _ <- time_sleep (delay * (attempt + 1)) ;; ret Continue
      else ret Break
  | _ => ret Break
  end.

(** [for attempt in range(retries): ...] followed by [return []] *)
Fixpoint for_attempts (query : string) (delay : Z) (attempts : list Z)
  : M (list (string * string)) :=
  match attempts with
  | [] => ret []
  | attempt :: rest =>
      c <- try_except (search_pharmacies query) (on_exception delay attempt) ;;
      match c with
      | Returns v => ret v
      | Continue => for_attempts query delay rest
      | Break => ret []
      end
  end.

Definition get_nearby_pharmacies (location : string) (retries delay : Z)
  : M (list (string * string)) :=
  for_attempts ("pharmacies near " +:+ location) delay (range retries).

(** ** The evidence bundle, as the specification words it

    Each search result is either a successful extraction, an excerpt with
    its URL, or it is skipped; the bundle is the sequence of the successful
    ones in retrieval order. *)

(** The outcome of one result when the trace so far is [h]. *)
Definition spec_extract (h : trace) (res : record) : option (string * string) :=
  match res !! "href" with
  | None => None
  | Some url =>
      match http_fetch env h url 5 with
      | Raise _ => None
      | Return page =>
          match html_paragraphs env page with
          | Raise _ => None
          | Return paragraphs =>
              let text := join " " paragraphs in
              if truthy text then Some (slice_to 2000 text, url) else None
          end
      end
  end.

(** The trace once the result has been handled: a result that carries a
    link costs one page fetch. *)
Definition spec_after (h : trace) (res : record) : trace :=
  match res !! "href" with
  | None => h
  | Some url => h ++ [Get url 5]
  end.

Fixpoint spec_excerpts (results : list record) (h : trace) : list (string * string) :=
  match results with
  | [] => []
  | res :: rest =>
      match spec_extract h res with
      | Some ex => ex :: spec_excerpts rest (spec_after h res)
      | None => spec_excerpts rest (spec_after h res)
      end
  end.

(** No result of the run yields an excerpt. *)
Fixpoint zero_extractions (results : list record) (h : trace) : Prop :=
  match results with
  | [] => True
  | res :: rest =>
      spec_extract h res = None /\ zero_extractions rest (spec_after h res)
  end.

(** ** Rate limiting, as the specification words it *)

(** The search answers the query with the rate-limit error. *)
Definition rate_limited (h : trace) (query : string) : Prop :=
  exists msg,
    search_service env h query 5 = Raise (DuckDuckGoSearchException msg)
    /\ str_contains ratelimit_marker msg = true.

(** One failed attempt followed by its pause. *)
Definition backoff_round (query : string) (delay attempt : Z) : trace :=
  [Search query 5; Sleep (delay * (attempt + 1))].

Fixpoint backoff (query : string) (delay : Z) (attempts : list Z) : trace :=
  match attempts with
  | [] => []
  | attempt :: rest => backoff_round query delay attempt ++ backoff query delay rest
  end.

(** Every attempt of [attempts], run from the trace [h], is rate limited. *)
Fixpoint throttled (query : string) (delay : Z) (attempts : list Z) (h : trace) : Prop :=
  match attempts with
  | [] => True
  | attempt :: rest =>
      rate_limited h query
      /\ throttled query delay rest (h ++ backoff_round query delay attempt)
  end.

End Routines.

(** The error is the rate-limit error of the search service. *)
Definition is_rate_limit (e : exn) : bool :=
  match e with
  | DuckDuckGoSearchException msg => str_contains ratelimit_marker msg
  | _ => false
  end.

(** What the accumulators become when a result has outcome [o]. *)
Definition extend (acc : list string * list string) (o : option (string * string))
  : list string * list string :=
  match o with
  | Some ex => (acc.1 ++ [ex.1], acc.2 ++ [ex.2])
  | None => acc
  end.

(** The trace after the whole loop. *)
Definition spec_trace (results : list record) (h : trace) : trace :=
  foldl spec_after h results.

(** The pharmacy entry of a search result, as the specification words it:
    a result that carries a link gives its title and its link. *)
Definition listing (r : record) : option (string * string) :=
  match r !! "href", r !! "title" with
  | Some href, Some title => Some (title, href)
  | _, _ => None
  end.

(** A result that carries a link also carries a title. *)
Definition titled (r : record) : Prop :=
  is_Some (r !! "href") -> is_Some (r !! "title").

(** ** Stub services, for the examples *)

Definition search_result (title href : string) : record :=
  {[ "title" := title; "href" := href ]}.

Definition flu_first : record :=
  search_result "Influenza (flu)" "https://www.mayoclinic.org/flu".
Definition flu_second : record :=
  search_result "Flu" "https://medlineplus.gov/flu.html".
Definition flu_third : record :=
  search_result "Influenza (seasonal)" "https://www.who.int/influenza".

Definition flu_results : list record := [flu_first; flu_second; flu_third].

(** Three pages are found and each has two paragraphs. *)
Definition flu_web : services := {|
  search_service := fun _ _ _ => Return flu_results;
  http_fetch := fun _ url _ => Return ("<p>" +:+ url +:+ "</p><p>rest</p>");
  html_paragraphs := fun body => Return [body; "rest"];
  os_sleep := fun _ => Return tt
|}.

(** The same search, but the second page times out and the third page has
    no paragraph. *)
Definition flaky_web : services := {|
  search_service := fun _ _ _ => Return flu_results;
  http_fetch := fun _ url _ =>
    if String.eqb url "https://medlineplus.gov/flu.html"
    then Raise (RequestException "Read timed out. (read timeout=5)")
    else Return url;
  html_paragraphs := fun body =>
    if String.eqb body "https://www.who.int/influenza" then Return []
    else Return [body; "rest"];
  os_sleep := fun _ => Return tt
|}.

(** The search service is rate limited on every call. *)
Definition throttled_web : services := {|
  search_service := fun _ _ _ =>
    Raise (DuckDuckGoSearchException "https://duckduckgo.com/ 202 Ratelimit");
  http_fetch := fun _ _ _ => Raise (RequestException "unreachable");
  html_paragraphs := fun _ => Return [];
  os_sleep := fun _ => Return tt
|}.

Definition pharmacy_results : list record :=
  [ search_result "City Pharmacy" "https://citypharmacy.example";
    {[ "title" := "No link" ]};
    search_result "Apollo Pharmacy" "https://apollo.example" ].

(** The search service is rate limited on its first two calls and answers
    from the third call on. *)
Definition recovering_web : services := {|
  search_service := fun h _ _ =>
    if (length (searches h) <? 2)%nat
    then Raise (DuckDuckGoSearchException "https://duckduckgo.com/ 202 Ratelimit")
    else Return pharmacy_results;
  http_fetch := fun _ _ _ => Raise (RequestException "unreachable");
  html_paragraphs := fun _ => Return [];
  os_sleep := fun _ => Return tt
|}.

(** The search service fails with an error that is not the rate limit. *)
Definition broken_web : services := {|
  search_service := fun _ _ _ =>
    Raise (DuckDuckGoSearchException "https://duckduckgo.com/ 403 Forbidden");
  http_fetch := fun _ _ _ => Raise (RequestException "unreachable");
  html_paragraphs := fun _ => Return [];
  os_sleep := fun _ => Return tt
|}.

(** The search service answers with a result that has a link and no title. *)
Definition untitled_web : services := {|
  search_service := fun _ _ _ =>
    Return [ search_result "City Pharmacy" "https://citypharmacy.example";
             {[ "href" := "https://untitled.example" ]} ];
  http_fetch := fun _ _ _ => Raise (RequestException "unreachable");
  html_paragraphs := fun _ => Return [];
  os_sleep := fun _ => Return tt
|}.

(** ** Further observations on traces and results *)

(** The page fetches of a trace, in order. *)
Definition fetches (t : trace) : list (string * Z) :=
  omap (fun ev => match ev with Get u n => Some (u, n) | _ => None end) t.

(** The links of the search results, in order. *)
Definition links (results : list record) : list string :=
  omap (fun r : record => r !! "href") results.

(** The time slept in total. *)
Definition total (durations : list Z) : Z := foldr Z.add 0 durations.

(** The pause after the failed attempt [i] (line 108). *)
Definition pause (delay i : Z) : Z := delay * (i + 1).

(** The search finds the three pages, none of them can be fetched. *)
Definition dead_links_web : services := {|
  search_service := fun _ _ _ => Return flu_results;
  http_fetch := fun _ _ _ => Raise (RequestException "Connection refused");
  html_paragraphs := fun body => Return [body];
  os_sleep := fun _ => Return tt
|}.

(** ** The button action (lines 133-174)

    The script renders with [st.markdown], [st.warning] and [st.error] and
    talks to the model through the chat handle of the session.  The
    headings are the byte strings of the source (their emoji in UTF-8). *)

Inductive output : Type :=
| Markdown (body : string)
| Warning (body : string)
| Error (body : string).

(** [st.session_state.chat.send_message(prompt)] (line 149) and then
    [response.text] (line 153): the call returns and the text is read; or
    the call returns and reading the text raises, after the advice heading
    has been rendered (line 152); or the call itself raises.  Of an
    exception the [except] clause only uses the description [str(e)]. *)
Inductive reply : Type :=
| Answer (text : string)
| Blocked (description : string)
| Failure (description : string).

(** The state of one browser session: the trace of the outside world, the
    prompts sent on the chat handle so far, and what has been rendered. *)
Record session : Type := {
  world : trace;
  asked : list string;
  screen : list output
}.

Definition App (A : Type) : Type := session -> result A * session.

Definition app_ret {A} (a : A) : App A := fun s => (Return a, s).

Definition app_bind {A B} (m : App A) (k : A -> App B) : App B :=
  fun s =>
    match m s with
    | (Return a, s') => k a s'
    | (Raise e, s') => (Raise e, s')
    end.

Notation "x <~ m ;; k" := (app_bind m (fun x => k))
  (at level 100, m at next level, right associativity).

(** A call of one of the two routines from the script. *)
Definition in_world {A} (m : M A) : App A :=
  fun s =>
    match m (world s) with
    | (r, h') => (r, {| world := h'; asked := asked s; screen := screen s |})
    end.

(** [st.markdown], [st.warning], [st.error] *)
Definition st_show (o : output) : App unit :=
  fun s => (Return tt, {| world := world s; asked := asked s; screen := screen s ++ [o] |}).

(** [f"- [{name}]({link})"] *)
Definition md_link (name link : string) : string :=
  "- [" +:+ name +:+ "](" +:+ link +:+ ")".

Definition no_data_warning : string := "No medical data found for that condition.".

Definition no_pharmacy_warning : string :=
  "No pharmacies found for that location or rate limit reached. Try again later.".

Definition advice_heading : string := "### 🧠 Medical Advice".
Definition sources_heading : string := "### 🌐 Sources Used for Medical Accuracy".
Definition pharmacies_heading : string := "### 🏥 Nearby Pharmacies".

(** What the answer of the model puts on the screen (lines 149-161). *)
Definition advice_outputs (rag_sources : list string) (r : reply) : list output :=
  match r with
  | Answer text =>
      [Markdown advice_heading; Markdown text]
      ++ match rag_sources with
         | [] => []
         | _ :: _ =>
             [Markdown sources_heading;
              Markdown (join (String newline EmptyString)
                          ((fun url => md_link url url) <$> rag_sources))]
         end
  | Blocked description =>
      [Markdown advice_heading;
       Error ("Error generating medical advice: " +:+ description)]
  | Failure description => [Error ("Error generating medical advice: " +:+ description)]
  end.

(** What the pharmacy step puts on the screen (lines 169-174). *)
Definition pharmacy_outputs (pharmacies : list (string * string)) : list output :=
  match pharmacies with
  | [] => [Warning no_pharmacy_warning]
  | _ :: _ =>
      Markdown pharmacies_heading :: ((fun p => Markdown (md_link p.1 p.2)) <$> pharmacies)
  end.

Section Application.

Context (env : services).

(** The model behind the chat handle: its answer to a prompt, given the
    prompts sent before in the session. *)
Context (chat_service : list string -> string -> reply).

(** The constant [combined_prompt] of line 78. *)
Context (combined_prompt : string).

Definition send_message (prompt : string) : App reply :=
  fun s =>
    (Return (chat_service (asked s) prompt),
     {| world := world s; asked := asked s ++ [prompt]; screen := screen s |}).

(** Lines 140-146. *)
Definition full_prompt (rag_text condition : string) : string :=
  "The following medical content was retrieved from trusted sources to enhance accuracy:"
  +:+ blank_line +:+ rag_text +:+ blank_line
  +:+ "---" +:+ blank_line
  +:+ combined_prompt +:+ blank_line
  +:+ "Condition: " +:+ condition.

(** Lines 139-161: the branch [if rag_text:]. *)
Definition advise (rag_text : string) (rag_sources : list string) (condition : string)
  : App unit :=
  let source_list :=
    join (String newline EmptyString) ((fun url => md_link url url) <$> rag_sources) in
  r <~ send_message (full_prompt rag_text condition) ;;
  match r with
  | Answer text =>
      _ <~ st_show (Markdown advice_heading) ;;
      _ <~ st_show (Markdown text) ;;
      match rag_sources with
      | [] => app_ret tt
      | _ :: _ =>
          _ <~ st_show (Markdown sources_heading) ;;
          st_show (Markdown source_list)
      end
  | Blocked description =>
      _ <~ st_show (Markdown advice_heading) ;;
      st_show (Error ("Error generating medical advice: " +:+ description))
  | Failure description =>
      st_show (Error ("Error generating medical advice: " +:+ description))
  end.

(** [for name, link in pharmacies: st.markdown(...)] *)
Fixpoint show_pharmacies (pharmacies : list (string * string)) : App unit :=
  match pharmacies with
  | [] => app_ret tt
  | (name, link) :: rest =>
      _ <~ st_show (Markdown (md_link name link)) ;; show_pharmacies rest
  end.

(** Lines 166-174: the branch [if location:]. *)
Definition find_pharmacies (location : string) : App unit :=
  if truthy location then
    pharmacies <~ in_world (get_nearby_pharmacies env location 3 2) ;;
    match pharmacies with
    | [] => st_show (Warning no_pharmacy_warning)
    | _ :: _ =>
        _ <~ st_show (Markdown pharmacies_heading) ;;
        show_pharmacies pharmacies
    end
  else app_ret tt.

(** Lines 133-174; [clicked] is the value of [st.button(...)]. *)
Definition on_submit (clicked : bool) (condition location : string) : App unit :=
  if clicked && truthy condition then
    rag <~ in_world (retrieve_medical_data env condition) ;;
    _ <~ (if truthy rag.1
          then advise rag.1 rag.2 condition
          else st_show (Warning no_data_warning)) ;;
    find_pharmacies location
  else app_ret tt.

End Application.

(** A model that answers every prompt. *)
Definition helpful_chat : list string -> string -> reply :=
  fun _ _ => Answer "Rest and drink fluids.".

(** A model that is unavailable. *)
Definition failing_chat : list string -> string -> reply :=
  fun _ _ => Failure "503 Service Unavailable".


(** Evidence is found, and the pharmacy search is rate limited twice. *)
Definition busy_web : services := {|
  search_service := fun h query _ =>
    if String.prefix "pharmacies near " query then
      if (length (searches h) <? 3)%nat
      then Raise (DuckDuckGoSearchException "https://duckduckgo.com/ 202 Ratelimit")
      else Return pharmacy_results
    else Return flu_results;
  http_fetch := fun _ url _ => Return url;
  html_paragraphs := fun body => Return [body; "rest"];
  os_sleep := fun _ => Return tt
|}.

Definition new_session : session := {| world := []; asked := []; screen := [] |}.

(** ** Basic facts on strings *)

Lemma substring_length_le (n : nat) (s : string) :
  (String.length (String.substring 0 n s) <= n)%nat.
Proof.
  revert s. induction n as [|n IH]; intros s.
  - destruct s; simpl; lia.
  - destruct s as [|c s]; simpl; [lia|].
    specialize (IH s). lia.
Qed.

Lemma slice_to_length (n : nat) (s : string) :
  (String.length (slice_to n s) <= n)%nat.
Proof. apply substring_length_le. Qed.

Lemma truthy_nonempty (s : string) : truthy s = true <-> s <> "".
Proof. destruct s; simpl; split; congruence. Qed.

(** ** The evidence retriever *)

Section Evidence.

Context (env : services).

Lemma visit_result_spec (res : record) (acc : list string * list string) (h : trace) :
  visit_result env res acc h
  = (Return (extend acc (spec_extract env h res)), spec_after h res).
Proof.
  destruct acc as [docs sources].
  unfold visit_result, fetch_excerpt, try_except, bind, lift, requests_get,
    getitem, spec_extract, spec_after, extend, ret.
  destruct (res !! "href") as [url|]; [|reflexivity].
  destruct (http_fetch env h url 5) as [page|e]; [|reflexivity].
  destruct (html_paragraphs env page) as [ps|e]; [|reflexivity].
  destruct (truthy (join " " ps)); reflexivity.
Qed.

Lemma for_results_spec (results : list record) :
  forall (acc : list string * list string) (h : trace),
    for_results env results acc h
    = (Return (acc.1 ++ (spec_excerpts env results h).*1,
               acc.2 ++ (spec_excerpts env results h).*2),
       spec_trace results h).
Proof.
  induction results as [|res rest IH]; intros [docs sources] h.
  - cbn [for_results spec_excerpts spec_trace foldl fmap list_fmap fst snd].
    unfold ret. by rewrite !app_nil_r.
  - cbn [for_results spec_excerpts spec_trace foldl].
    unfold bind at 1. rewrite visit_result_spec.
    rewrite IH. unfold spec_trace.
    destruct (spec_extract env h res) as [[d u]|];
      cbn [extend fst snd fmap list_fmap]; [|reflexivity].
    by rewrite <- !app_assoc.
Qed.

Lemma for_results_total (results : list record) (acc : list string * list string) (h : trace) :
  exists acc' h', for_results env results acc h = (Return acc', h').
Proof. rewrite for_results_spec. eauto. Qed.

Lemma spec_excerpts_length (results : list record) :
  forall h, Forall (fun ex => (String.length ex.1 <= 2000)%nat) (spec_excerpts env results h).
Proof.
  induction results as [|res rest IH]; intros h; cbn [spec_excerpts]; [constructor|].
  destruct (spec_extract env h res) as [[d u]|] eqn:E; [|apply IH].
  constructor; [|apply IH].
  unfold spec_extract in E.
  destruct (res !! "href") as [url|]; [|discriminate].
  destruct (http_fetch env h url 5) as [page|]; [|discriminate].
  destruct (html_paragraphs env page) as [ps|]; [|discriminate].
  destruct (truthy _); [|discriminate].
  injection E as <- _. apply slice_to_length.
Qed.

Lemma zero_extractions_nil (results : list record) :
  forall h, zero_extractions env results h -> spec_excerpts env results h = [].
Proof.
  induction results as [|res rest IH]; intros h; cbn [zero_extractions spec_excerpts];
    [reflexivity|].
  intros [-> Hrest]. by apply IH.
Qed.

Lemma retrieve_docs_spec (query : string) (h : trace) (results : list record) :
  search_service env h (query +:+ site_filter) 3 = Return results ->
  let h0 := h ++ [Search (query +:+ site_filter) 3] in
  retrieve_docs env query h
  = (Return ((spec_excerpts env results h0).*1, (spec_excerpts env results h0).*2),
     spec_trace results h0).
Proof.
  intros Hs h0. unfold retrieve_docs, bind, ddgs_text. rewrite Hs.
  by rewrite for_results_spec.
Qed.

Lemma for_results_app (pre post : list record) :
  forall (acc : list string * list string) (h : trace),
    for_results env (pre ++ post) acc h
    = (acc' <- for_results env pre acc ;; for_results env post acc') h.
Proof.
  induction pre as [|res pre IH]; intros acc h; [reflexivity|].
  cbn [app for_results]. unfold bind in *.
  rewrite visit_result_spec. apply IH.
Qed.

(** With the search answered and no successful extraction, the routine
    returns the empty text and the empty list of sources. *)
Lemma retrieve_zero_extractions (query : string) (h : trace) (results : list record) :
  search_service env h (query +:+ site_filter) 3 = Return results ->
  zero_extractions env results (h ++ [Search (query +:+ site_filter) 3]) ->
  exists h', retrieve_medical_data env query h = (Return ("", []), h').
Proof.
  intros Hs Hz. unfold retrieve_medical_data, bind at 1.
  rewrite (retrieve_docs_spec _ _ _ Hs). cbn zeta.
  rewrite (zero_extractions_nil _ _ Hz). eexists. reflexivity.
Qed.

End Evidence.

(** ** The pharmacy locator *)

Lemma entries_listing (results : list record) :
  Forall titled results -> entries results = Return (omap listing results).
Proof.
  induction 1 as [|r rest Hr _ IH]; [reflexivity|].
  cbn [entries omap list_omap]. unfold contains_key, getitem, listing, titled in *.
  destruct (r !! "href") as [href|]; [|exact IH].
  destruct Hr as [title ->]; [by eexists|].
  by rewrite IH.
Qed.

Lemma entries_missing_title (results : list record) (r : record) :
  r ∈ results -> is_Some (r !! "href") -> r !! "title" = None ->
  entries results = Raise (KeyError "title").
Proof.
  intros Hin [href Hhref] Htitle.
  induction results as [|r' rest IH]; [by apply not_elem_of_nil in Hin|].
  cbn [entries]. unfold contains_key, getitem.
  apply elem_of_cons in Hin as [<-|Hin].
  - by rewrite Hhref, Htitle.
  - rewrite (IH Hin).
    destruct (r' !! "href"); [|reflexivity].
    by destruct (r' !! "title").
Qed.

Lemma entries_raises (results : list record) (e : exn) :
  entries results = Raise e -> e = KeyError "title".
Proof.
  induction results as [|r rest IH]; [discriminate|].
  cbn [entries]. unfold contains_key, getitem.
  destruct (r !! "href") as [href|]; [|exact IH].
  destruct (r !! "title") as [title|]; [|congruence].
  destruct (entries rest) as [tl|e']; [discriminate|].
  intros [= <-]. by apply IH.
Qed.

Lemma backoff_app (query : string) (delay : Z) (pre post : list Z) :
  backoff query delay (pre ++ post) = backoff query delay pre ++ backoff query delay post.
Proof.
  induction pre as [|a pre IH]; [reflexivity|].
  cbn [app backoff]. by rewrite IH, <- app_assoc.
Qed.

Lemma sleeps_app (t1 t2 : trace) : sleeps (t1 ++ t2) = sleeps t1 ++ sleeps t2.
Proof. apply omap_app. Qed.

Lemma searches_app (t1 t2 : trace) : searches (t1 ++ t2) = searches t1 ++ searches t2.
Proof. apply omap_app. Qed.

Lemma sleeps_backoff (query : string) (delay : Z) (attempts : list Z) :
  sleeps (backoff query delay attempts) = (fun i => delay * (i + 1)) <$> attempts.
Proof.
  induction attempts as [|a rest IH]; [reflexivity|].
  cbn [backoff]. rewrite sleeps_app, IH. reflexivity.
Qed.

Lemma searches_backoff (query : string) (delay : Z) (attempts : list Z) :
  length (searches (backoff query delay attempts)) = length attempts.
Proof.
  induction attempts as [|a rest IH]; [reflexivity|].
  cbn [backoff]. rewrite searches_app, length_app, IH. reflexivity.
Qed.

Section Locator.

Context (env : services).

(** A successful search ends the loop with the value of the comprehension,
    or with the empty list when the comprehension raises. *)
Lemma attempt_answered (query : string) (delay attempt : Z) (rest : list Z)
    (h : trace) (results : list record) :
  search_service env h query 5 = Return results ->
  for_attempts env query delay (attempt :: rest) h
  = (Return match entries results with Return es => es | Raise _ => [] end,
     h ++ [Search query 5]).
Proof.
  intros Hs. cbn [for_attempts].
  unfold bind, try_except, search_pharmacies, bind, ddgs_text, lift.
  rewrite Hs. destruct (entries results) as [es|e] eqn:He; [reflexivity|].
  by rewrite (entries_raises _ _ He).
Qed.

(** An error that is not the rate-limit error ends the loop. *)
Lemma attempt_aborted (query : string) (delay attempt : Z) (rest : list Z)
    (h : trace) (e : exn) :
  search_service env h query 5 = Raise e ->
  is_rate_limit e = false ->
  for_attempts env query delay (attempt :: rest) h = (Return [], h ++ [Search query 5]).
Proof.
  intros Hs He. cbn [for_attempts].
  unfold bind, try_except, search_pharmacies, bind, ddgs_text.
  rewrite Hs. unfold on_exception.
  destruct e; try reflexivity. cbn [is_rate_limit] in He. by rewrite He.
Qed.

(** A duration between 0 and 31 days is slept. *)
Lemma sleep_outcome_portable (secs : Z) :
  0 <= secs <= portable_sleep_max -> sleep_outcome env secs = Return tt.
Proof.
  intros Hsecs. unfold sleep_outcome.
  assert (portable_sleep_max <= pytime_max_secs) by (by vm_compute).
  assert (0 <= pytime_max_secs) by (by vm_compute).
  destruct (Z.ltb_spec secs (- pytime_max_secs)); [lia|].
  destruct (Z.ltb_spec pytime_max_secs secs); [lia|]. cbn [orb].
  destruct (Z.ltb_spec secs 0); [lia|].
  destruct (Z.leb_spec secs portable_sleep_max); [done|lia].
Qed.

(** A negative duration that can be converted is rejected. *)
Lemma sleep_outcome_negative (secs : Z) :
  - pytime_max_secs <= secs < 0 ->
  sleep_outcome env secs = Raise (ValueError "sleep length must be non-negative").
Proof.
  intros Hsecs. unfold sleep_outcome.
  assert (0 <= pytime_max_secs) by (by vm_compute).
  destruct (Z.ltb_spec secs (- pytime_max_secs)); [lia|].
  destruct (Z.ltb_spec pytime_max_secs secs); [lia|]. cbn [orb].
  destruct (Z.ltb_spec secs 0); [done|lia].
Qed.

(** A duration that cannot be converted overflows, whatever its sign. *)
Lemma sleep_outcome_overflow (secs : Z) :
  secs < - pytime_max_secs \/ pytime_max_secs < secs ->
  sleep_outcome env secs
  = Raise (OverflowError "timestamp too large to convert to C _PyTime_t").
Proof.
  intros Hsecs. unfold sleep_outcome.
  destruct (Z.ltb_spec secs (- pytime_max_secs)); [done|].
  destruct (Z.ltb_spec pytime_max_secs secs); [done|lia].
Qed.

(** The rate-limit error makes the loop sleep, and go on when the sleep
    returns. *)
Lemma attempt_slept (query : string) (delay attempt : Z) (rest : list Z) (h : trace) :
  rate_limited env h query ->
  sleep_outcome env (delay * (attempt + 1)) = Return tt ->
  for_attempts env query delay (attempt :: rest) h
  = for_attempts env query delay rest (h ++ backoff_round query delay attempt).
Proof.
  intros (msg & Hs & Hm) Hsleep. cbn [for_attempts].
  unfold bind at 1, try_except, search_pharmacies, bind at 1, ddgs_text.
  rewrite Hs. unfold on_exception. rewrite Hm.
  unfold bind, time_sleep, ret. rewrite Hsleep.
  unfold backoff_round. by rewrite <- app_assoc.
Qed.

(** The error of a refused sleep leaves the [except] clause and the
    routine. *)
Lemma attempt_sleep_refused (query : string) (delay attempt : Z) (rest : list Z)
    (h : trace) (e : exn) :
  rate_limited env h query ->
  sleep_outcome env (delay * (attempt + 1)) = Raise e ->
  for_attempts env query delay (attempt :: rest) h = (Raise e, h ++ [Search query 5]).
Proof.
  intros (msg & Hs & Hm) Hsleep. cbn [for_attempts].
  unfold bind at 1, try_except, search_pharmacies, bind at 1, ddgs_text.
  rewrite Hs. unfold on_exception. rewrite Hm.
  unfold bind, time_sleep. by rewrite Hsleep.
Qed.

Lemma attempt_rate_limited (query : string) (delay attempt : Z) (rest : list Z)
    (h : trace) :
  0 <= delay * (attempt + 1) <= portable_sleep_max ->
  rate_limited env h query ->
  for_attempts env query delay (attempt :: rest) h
  = for_attempts env query delay rest (h ++ backoff_round query delay attempt).
Proof.
  intros Hd Hl. by apply attempt_slept; [|apply sleep_outcome_portable].
Qed.

Lemma for_attempts_throttled (query : string) (delay : Z) (pre post : list Z) :
  Forall (fun a => 0 <= delay * (a + 1) <= portable_sleep_max) pre ->
  forall h,
    throttled env query delay pre h ->
    for_attempts env query delay (pre ++ post) h
    = for_attempts env query delay post (h ++ backoff query delay pre).
Proof.
  intros Hpre. induction Hpre as [|a pre Ha _ IH]; intros h Ht.
  - cbn [app backoff]. by rewrite app_nil_r.
  - destruct Ht as [Hl Ht]. cbn [app backoff].
    rewrite attempt_rate_limited by done.
    rewrite (IH _ Ht). by rewrite <- app_assoc.
Qed.

End Locator.

Lemma range_nonneg (n : Z) : Forall (fun a => 0 <= a) (range n).
Proof. unfold range. apply Forall_seqZ. lia. Qed.

(** The pauses of [n] attempts are between 0 and 31 days when the last one
    is. *)
Lemma range_pauses_portable (delay n : Z) :
  0 <= delay ->
  delay * n <= portable_sleep_max ->
  Forall (fun a => 0 <= delay * (a + 1) <= portable_sleep_max) (range n).
Proof.
  intros Hdelay Hmax. unfold range. apply Forall_seqZ. intros a Ha. nia.
Qed.

Lemma range_split (k n : Z) :
  0 <= k <= n -> range n = range k ++ seqZ k (n - k).
Proof.
  intros Hk. unfold range.
  replace n with (k + (n - k)) at 1 by lia.
  rewrite seqZ_app by lia. reflexivity.
Qed.

Lemma range_succ (n : Z) : 0 <= n -> range (n + 1) = range n ++ [n].
Proof.
  intros Hn. unfold range. rewrite seqZ_app by lia.
  rewrite Z.add_0_l. rewrite (seqZ_cons n 1) by lia.
  by rewrite (seqZ_nil (Z.succ n)) by lia.
Qed.

(** * The properties of the specification *)

(** ** Evidence retriever *)

(** C1, evaluated where it fails: the search call of
    [retrieve_medical_data] is outside the [try] block, so when the search
    service raises (here the rate-limit error, for the condition "flu") no
    page extraction succeeds and the routine raises the error of the search
    instead of returning the empty text and the empty list of sources. *)
Theorem retrieve_search_failure_propagates :
  retrieve_medical_data throttled_web "flu" []
  = (Raise (DuckDuckGoSearchException "https://duckduckgo.com/ 202 Ratelimit"),
     [Search "flu site:mayoclinic.org OR site:medlineplus.gov OR site:who.int" 3]).
Proof. reflexivity. Qed.

(** C5: in every run of [retrieve_medical_data] in which the search is
    answered, the evidence text is the excerpts of the successful
    extractions joined by ["\n\n"] in retrieval order, the sources are the
    URLs of these same extractions in the same order, and there are as many
    sources as excerpts. *)
Theorem evidence_text_and_sources (env : services) (query : string) (h : trace)
    (results : list record) :
  search_service env h (query +:+ site_filter) 3 = Return results ->
  exists (docs sources : list string) (h' : trace),
    retrieve_docs env query h = (Return (docs, sources), h')
    /\ retrieve_medical_data env query h = (Return (join blank_line docs, sources), h')
    /\ docs = (spec_excerpts env results (h ++ [Search (query +:+ site_filter) 3])).*1
    /\ sources = (spec_excerpts env results (h ++ [Search (query +:+ site_filter) 3])).*2
    /\ length sources = length docs.
Proof.
  intros Hs.
  pose proof (retrieve_docs_spec env query h results Hs) as Hd. cbn zeta in Hd.
  eexists _, _, _. split; [exact Hd|].
  split; [|split; [reflexivity|split; [reflexivity|]]].
  - unfold retrieve_medical_data, bind at 1. rewrite Hd. reflexivity.
  - by rewrite !length_fmap.
Qed.

Lemma evidence_text_and_sources_witness :
  exists (docs sources : list string) (h' : trace),
    retrieve_docs flaky_web "flu" [] = (Return (docs, sources), h')
    /\ retrieve_medical_data flaky_web "flu" []
       = (Return (join blank_line docs, sources), h')
    /\ docs = (spec_excerpts flaky_web flu_results
                 ([] ++ [Search ("flu" +:+ site_filter) 3])).*1
    /\ sources = (spec_excerpts flaky_web flu_results
                    ([] ++ [Search ("flu" +:+ site_filter) 3])).*2
    /\ length sources = length docs.
Proof.
  apply (evidence_text_and_sources flaky_web "flu" [] flu_results).
  reflexivity.
Defined.

(** C6: in every run of [retrieve_medical_data] in which the search is
    answered, every excerpt joined into the evidence text has at most 2000
    characters. *)
Theorem excerpts_at_most_2000 (env : services) (query : string) (h : trace)
    (results : list record) :
  search_service env h (query +:+ site_filter) 3 = Return results ->
  exists (docs sources : list string) (h' : trace),
    retrieve_docs env query h = (Return (docs, sources), h')
    /\ retrieve_medical_data env query h = (Return (join blank_line docs, sources), h')
    /\ Forall (fun d => (String.length d <= 2000)%nat) docs.
Proof.
  intros Hs.
  pose proof (retrieve_docs_spec env query h results Hs) as Hd. cbn zeta in Hd.
  eexists _, _, _. split; [exact Hd|]. split.
  - unfold retrieve_medical_data, bind at 1. rewrite Hd. reflexivity.
  - apply Forall_fmap. eapply Forall_impl; [apply spec_excerpts_length|].
    intros [d u] Hlen. exact Hlen.
Qed.

Lemma excerpts_at_most_2000_witness :
  exists (docs sources : list string) (h' : trace),
    retrieve_docs flu_web "flu" [] = (Return (docs, sources), h')
    /\ retrieve_medical_data flu_web "flu" []
       = (Return (join blank_line docs, sources), h')
    /\ Forall (fun d => (String.length d <= 2000)%nat) docs.
Proof.
  apply (excerpts_at_most_2000 flu_web "flu" [] flu_results).
  reflexivity.
Defined.

(** C7: when the fetch or the extraction of one search result raises, after
    the results [pre] have been handled, the error is swallowed: the lists
    of excerpts and sources stay as they were, the remaining results [post]
    are processed from there, and the loop ends without an exception. *)
Theorem failed_result_is_skipped (env : services) (pre post : list record)
    (res : record) (acc0 acc : list string * list string) (h0 h h' : trace) (e : exn) :
  for_results env pre acc0 h0 = (Return acc, h) ->
  fetch_excerpt env res acc.1 acc.2 h = (Raise e, h') ->
  visit_result env res acc h = (Return acc, h')
  /\ for_results env (pre ++ res :: post) acc0 h0 = for_results env post acc h'
  /\ exists acc' h'', for_results env (pre ++ res :: post) acc0 h0 = (Return acc', h'').
Proof.
  intros Hpre Hres.
  assert (visit_result env res acc h = (Return acc, h')) as Hvisit.
  { unfold visit_result, try_except. by rewrite Hres. }
  assert (for_results env (pre ++ res :: post) acc0 h0 = for_results env post acc h')
    as Hbatch.
  { rewrite for_results_app. unfold bind at 1. rewrite Hpre.
    cbn [for_results]. unfold bind at 1. by rewrite Hvisit. }
  split; [exact Hvisit|]. split; [exact Hbatch|].
  rewrite Hbatch. apply for_results_total.
Qed.

Lemma failed_result_is_skipped_witness :
  visit_result flaky_web flu_second
    (["https://www.mayoclinic.org/flu rest"], ["https://www.mayoclinic.org/flu"])
    [Get "https://www.mayoclinic.org/flu" 5]
  = (Return (["https://www.mayoclinic.org/flu rest"], ["https://www.mayoclinic.org/flu"]),
     [Get "https://www.mayoclinic.org/flu" 5; Get "https://medlineplus.gov/flu.html" 5])
  /\ for_results flaky_web ([flu_first] ++ flu_second :: [flu_third]) ([], []) []
     = for_results flaky_web [flu_third]
         (["https://www.mayoclinic.org/flu rest"], ["https://www.mayoclinic.org/flu"])
         [Get "https://www.mayoclinic.org/flu" 5; Get "https://medlineplus.gov/flu.html" 5]
  /\ exists acc' h'',
       for_results flaky_web ([flu_first] ++ flu_second :: [flu_third]) ([], []) []
       = (Return acc', h'').
Proof.
  apply (failed_result_is_skipped flaky_web [flu_first] [flu_third] flu_second ([], [])
           (["https://www.mayoclinic.org/flu rest"], ["https://www.mayoclinic.org/flu"])
           [] [Get "https://www.mayoclinic.org/flu" 5]
           [Get "https://www.mayoclinic.org/flu" 5; Get "https://medlineplus.gov/flu.html" 5]
           (RequestException "Read timed out. (read timeout=5)"));
    vm_compute; reflexivity.
Defined.

(** C8: for the condition "flu", when the search returns three results with
    a link and each fetched page yields paragraphs whose space-joined text
    is not empty, the evidence text is made of the three space-joined texts,
    each cut at 2000 characters (and joined by ["\n\n"]), and the sources
    are exactly the three links in the order of the search results. *)
Theorem flu_end_to_end (env : services) (h : trace) (r1 r2 r3 : record)
    (u1 u2 u3 b1 b2 b3 : string) (ps1 ps2 ps3 : list string) :
  search_service env h ("flu" +:+ site_filter) 3 = Return [r1; r2; r3] ->
  r1 !! "href" = Some u1 -> r2 !! "href" = Some u2 -> r3 !! "href" = Some u3 ->
  http_fetch env (h ++ [Search ("flu" +:+ site_filter) 3]) u1 5 = Return b1 ->
  http_fetch env (h ++ [Search ("flu" +:+ site_filter) 3; Get u1 5]) u2 5 = Return b2 ->
  http_fetch env (h ++ [Search ("flu" +:+ site_filter) 3; Get u1 5; Get u2 5]) u3 5
  = Return b3 ->
  html_paragraphs env b1 = Return ps1 ->
  html_paragraphs env b2 = Return ps2 ->
  html_paragraphs env b3 = Return ps3 ->
  join " " ps1 <> "" -> join " " ps2 <> "" -> join " " ps3 <> "" ->
  retrieve_medical_data env "flu" h
  = (Return (join blank_line [slice_to 2000 (join " " ps1);
                              slice_to 2000 (join " " ps2);
                              slice_to 2000 (join " " ps3)],
             [u1; u2; u3]),
     h ++ [Search ("flu" +:+ site_filter) 3; Get u1 5; Get u2 5; Get u3 5]).
Proof.
  intros Hs Hr1 Hr2 Hr3 Hf1 Hf2 Hf3 Hp1 Hp2 Hp3 Ht1 Ht2 Ht3.
  apply truthy_nonempty in Ht1, Ht2, Ht3.
  unfold retrieve_medical_data, bind at 1.
  rewrite (retrieve_docs_spec env "flu" h _ Hs). cbn zeta.
  unfold spec_trace. cbn [spec_excerpts foldl].
  unfold spec_extract, spec_after.
  rewrite Hr1, Hf1, Hp1, Ht1.
  rewrite <- !app_assoc. cbn [app].
  rewrite Hr2, Hf2, Hp2, Ht2.
  rewrite <- !app_assoc. cbn [app].
  rewrite Hr3, Hf3, Hp3, Ht3.
  rewrite <- !app_assoc. reflexivity.
Qed.

Lemma flu_end_to_end_witness :
  retrieve_medical_data flu_web "flu" []
  = (Return (join blank_line
               [slice_to 2000 (join " " ["<p>https://www.mayoclinic.org/flu</p><p>rest</p>"; "rest"]);
                slice_to 2000 (join " " ["<p>https://medlineplus.gov/flu.html</p><p>rest</p>"; "rest"]);
                slice_to 2000 (join " " ["<p>https://www.who.int/influenza</p><p>rest</p>"; "rest"])],
             ["https://www.mayoclinic.org/flu"; "https://medlineplus.gov/flu.html";
              "https://www.who.int/influenza"]),
     [] ++ [Search ("flu" +:+ site_filter) 3; Get "https://www.mayoclinic.org/flu" 5;
            Get "https://medlineplus.gov/flu.html" 5; Get "https://www.who.int/influenza" 5]).
Proof.
  apply (flu_end_to_end flu_web [] flu_first flu_second flu_third
           "https://www.mayoclinic.org/flu" "https://medlineplus.gov/flu.html"
           "https://www.who.int/influenza"
           "<p>https://www.mayoclinic.org/flu</p><p>rest</p>"
           "<p>https://medlineplus.gov/flu.html</p><p>rest</p>"
           "<p>https://www.who.int/influenza</p><p>rest</p>");
    try reflexivity; vm_compute; discriminate.
Defined.

(** ** Pharmacy locator *)

(** C2: when the search raises the rate-limit error on attempts 1 and 2 and
    is answered on attempt 3, [get_nearby_pharmacies] returns the entries of
    that answer (title and link of every result with a link, in order),
    after three searches and exactly two sleeps, of [delay * 1] and then
    [delay * 2].  A third attempt needs [retries] to be at least 3, and
    [time.sleep] needs pauses it can sleep: a delay that is not negative
    and a second pause of 31 days at most. *)
Theorem third_attempt_succeeds (env : services) (location : string)
    (retries delay : Z) (h : trace) (results : list record) :
  3 <= retries ->
  0 <= delay ->
  delay * 2 <= portable_sleep_max ->
  throttled env ("pharmacies near " +:+ location) delay [0; 1] h ->
  search_service env (h ++ backoff ("pharmacies near " +:+ location) delay [0; 1])
    ("pharmacies near " +:+ location) 5 = Return results ->
  exists (out : list (string * string)) (t : trace),
    get_nearby_pharmacies env location retries delay h = (Return out, h ++ t)
    /\ (forall es, entries results = Return es -> out = es)
    /\ (Forall titled results -> out = omap listing results)
    /\ sleeps t = [delay * 1; delay * 2]
    /\ length (searches t) = 3%nat.
Proof.
  intros Hretries Hdelay Hmax Hthrottled Hs.
  set (q := "pharmacies near " +:+ location) in *.
  assert (range retries = [0; 1] ++ 2 :: seqZ 3 (retries - 3)) as Hrange.
  { rewrite (range_split 2 retries) by lia.
    rewrite (seqZ_cons 2) by lia.
    replace (Z.succ 2) with 3 by lia.
    replace (Z.pred (retries - 2)) with (retries - 3) by lia.
    reflexivity. }
  exists (match entries results with Return es => es | Raise _ => [] end),
         (backoff q delay [0; 1] ++ [Search q 5]).
  split; [|split; [|split; [|split]]].
  - unfold get_nearby_pharmacies. fold q. rewrite Hrange.
    rewrite for_attempts_throttled; [|repeat constructor; lia|done].
    rewrite (attempt_answered env q delay 2 _ _ results Hs).
    by rewrite <- app_assoc.
  - by intros es ->.
  - intros Ht. by rewrite (entries_listing results Ht).
  - rewrite sleeps_app, sleeps_backoff. cbn [fmap list_fmap sleeps omap list_omap app].
    repeat f_equal; lia.
  - rewrite searches_app, length_app, searches_backoff. reflexivity.
Qed.

Lemma third_attempt_succeeds_witness :
  exists (out : list (string * string)) (t : trace),
    get_nearby_pharmacies recovering_web "Delhi" 3 2 [] = (Return out, [] ++ t)
    /\ (forall es, entries pharmacy_results = Return es -> out = es)
    /\ (Forall titled pharmacy_results -> out = omap listing pharmacy_results)
    /\ sleeps t = [2 * 1; 2 * 2]
    /\ length (searches t) = 3%nat.
Proof.
  apply (third_attempt_succeeds recovering_web "Delhi" 3 2 [] pharmacy_results).
  - lia.
  - lia.
  - by vm_compute.
  - repeat split; eexists; split; reflexivity.
  - reflexivity.
Defined.

(** C3: with [retries = 3] and the rate-limit error on every attempt,
    [get_nearby_pharmacies] searches exactly 3 times and then returns the
    empty list; it raises nothing (the pauses are ones [time.sleep] can
    sleep: the delay is not negative and the third pause is of 31 days at
    most). *)
Theorem retries_exhausted (env : services) (location : string) (delay : Z) (h : trace) :
  0 <= delay ->
  delay * 3 <= portable_sleep_max ->
  throttled env ("pharmacies near " +:+ location) delay (range 3) h ->
  exists t : trace,
    get_nearby_pharmacies env location 3 delay h = (Return [], h ++ t)
    /\ length (searches t) = 3%nat
    /\ searches t = replicate 3 ("pharmacies near " +:+ location, 5).
Proof.
  intros Hdelay Hmax Hthrottled.
  set (q := "pharmacies near " +:+ location) in *.
  exists (backoff q delay (range 3)).
  split; [|split].
  - unfold get_nearby_pharmacies. fold q.
    rewrite <- (app_nil_r (range 3)) at 1.
    rewrite for_attempts_throttled;
      [reflexivity|by apply range_pauses_portable|done].
  - by rewrite searches_backoff.
  - reflexivity.
Qed.

Lemma retries_exhausted_witness :
  exists t : trace,
    get_nearby_pharmacies throttled_web "Delhi" 3 2 [] = (Return [], [] ++ t)
    /\ length (searches t) = 3%nat
    /\ searches t = replicate 3 ("pharmacies near " +:+ "Delhi", 5).
Proof.
  apply (retries_exhausted throttled_web "Delhi" 2 []).
  - lia.
  - by vm_compute.
  - repeat split; eexists; split; reflexivity.
Defined.

(** C4: when the first search raises an error that is not the rate-limit
    error (a search error whose description lacks the marker, or an error
    of another type), [get_nearby_pharmacies] returns the empty list at
    once: one search, no sleep, no further attempt. *)
Theorem other_error_aborts (env : services) (location : string) (retries delay : Z)
    (h : trace) (e : exn) :
  1 <= retries ->
  search_service env h ("pharmacies near " +:+ location) 5 = Raise e ->
  is_rate_limit e = false ->
  exists t : trace,
    get_nearby_pharmacies env location retries delay h = (Return [], h ++ t)
    /\ t = [Search ("pharmacies near " +:+ location) 5]
    /\ sleeps t = []
    /\ length (searches t) = 1%nat.
Proof.
  intros Hretries Hs He.
  exists [Search ("pharmacies near " +:+ location) 5].
  split; [|done].
  unfold get_nearby_pharmacies, range. rewrite seqZ_cons by lia.
  by apply attempt_aborted with (e := e).
Qed.

Lemma other_error_aborts_witness :
  exists t : trace,
    get_nearby_pharmacies broken_web "Delhi" 3 2 [] = (Return [], [] ++ t)
    /\ t = [Search ("pharmacies near " +:+ "Delhi") 5]
    /\ sleeps t = []
    /\ length (searches t) = 1%nat.
Proof.
  apply (other_error_aborts broken_web "Delhi" 3 2 []
           (DuckDuckGoSearchException "https://duckduckgo.com/ 403 Forbidden")).
  - lia.
  - reflexivity.
  - reflexivity.
Defined.

(** C9: when a search is answered (on the first attempt, or after [k]
    rate-limited attempts) and one of the returned records has the key
    ["href"] and lacks the key ["title"], the [KeyError] of the
    comprehension is caught by the generic handler and the whole call
    returns the empty list: the entries of the other results are lost.
    (The [k] pauses before are ones [time.sleep] can sleep: the delay is
    not negative and the last pause is of 31 days at most.) *)
Theorem missing_title_returns_nothing (env : services) (location : string)
    (retries delay k : Z) (h : trace) (results : list record) (r : record) :
  0 <= delay ->
  delay * k <= portable_sleep_max ->
  0 <= k < retries ->
  throttled env ("pharmacies near " +:+ location) delay (range k) h ->
  search_service env (h ++ backoff ("pharmacies near " +:+ location) delay (range k))
    ("pharmacies near " +:+ location) 5 = Return results ->
  r ∈ results ->
  is_Some (r !! "href") ->
  r !! "title" = None ->
  entries results = Raise (KeyError "title")
  /\ get_nearby_pharmacies env location retries delay h
     = (Return [],
        h ++ backoff ("pharmacies near " +:+ location) delay (range k)
          ++ [Search ("pharmacies near " +:+ location) 5]).
Proof.
  intros Hdelay Hmax Hk Hthrottled Hs Hin Hhref Htitle.
  set (q := "pharmacies near " +:+ location) in *.
  pose proof (entries_missing_title results r Hin Hhref Htitle) as He.
  split; [exact He|].
  unfold get_nearby_pharmacies. fold q.
  rewrite (range_split k retries) by lia.
  rewrite for_attempts_throttled; [|by apply range_pauses_portable|done].
  rewrite (seqZ_cons k) by lia.
  rewrite (attempt_answered env q delay k _ _ results Hs), He.
  by rewrite <- app_assoc.
Qed.

Lemma missing_title_returns_nothing_witness :
  entries [ search_result "City Pharmacy" "https://citypharmacy.example";
            {[ "href" := "https://untitled.example" ]} ]
  = Raise (KeyError "title")
  /\ get_nearby_pharmacies untitled_web "Delhi" 3 2 []
     = (Return [],
        [] ++ backoff ("pharmacies near " +:+ "Delhi") 2 (range 0)
          ++ [Search ("pharmacies near " +:+ "Delhi") 5]).
Proof.
  apply (missing_title_returns_nothing untitled_web "Delhi" 3 2 0 []
           [ search_result "City Pharmacy" "https://citypharmacy.example";
             {[ "href" := "https://untitled.example" ]} ]
           {[ "href" := "https://untitled.example" ]}).
  - lia.
  - by vm_compute.
  - lia.
  - exact I.
  - reflexivity.
  - apply list_elem_of_further, list_elem_of_here.
  - by eexists.
  - reflexivity.
Defined.

(** C10: when every attempt raises the rate-limit error, every failed
    attempt is followed by a sleep, the last one too: the call makes
    [retries] searches and exactly [retries] sleeps, of [delay * 1],
    [delay * 2], ..., [delay * retries], the last event of the run is the
    sleep of [delay * retries], and the call returns the empty list.  (The
    pauses are ones [time.sleep] can sleep: the delay is not negative and
    the last pause is of 31 days at most.) *)
Theorem sleep_after_every_failed_attempt (env : services) (location : string)
    (retries delay : Z) (h : trace) :
  0 <= delay ->
  delay * retries <= portable_sleep_max ->
  throttled env ("pharmacies near " +:+ location) delay (range retries) h ->
  exists t : trace,
    get_nearby_pharmacies env location retries delay h = (Return [], h ++ t)
    /\ sleeps t = (fun i => delay * (i + 1)) <$> range retries
    /\ length (sleeps t) = Z.to_nat retries
    /\ length (searches t) = Z.to_nat retries
    /\ (0 < retries -> last t = Some (Sleep (delay * retries))).
Proof.
  intros Hdelay Hmax Hthrottled.
  set (q := "pharmacies near " +:+ location) in *.
  exists (backoff q delay (range retries)).
  split; [|split; [|split; [|split]]].
  - unfold get_nearby_pharmacies. fold q.
    rewrite <- (app_nil_r (range retries)) at 1.
    rewrite for_attempts_throttled;
      [reflexivity|by apply range_pauses_portable|done].
  - apply sleeps_backoff.
  - rewrite sleeps_backoff, length_fmap. apply length_seqZ.
  - rewrite searches_backoff. apply length_seqZ.
  - intros Hpos.
    replace retries with ((retries - 1) + 1) at 1 by lia.
    rewrite range_succ by lia. rewrite backoff_app.
    cbn [backoff]. unfold backoff_round. rewrite app_nil_r.
    rewrite last_app_cons, last_cons_cons, last_singleton. do 2 f_equal. lia.
Qed.

Lemma sleep_after_every_failed_attempt_witness :
  exists t : trace,
    get_nearby_pharmacies throttled_web "Delhi" 3 2 [] = (Return [], [] ++ t)
    /\ sleeps t = (fun i => 2 * (i + 1)) <$> range 3
    /\ length (sleeps t) = Z.to_nat 3
    /\ length (searches t) = Z.to_nat 3
    /\ (0 < 3 -> last t = Some (Sleep (2 * 3))).
Proof.
  apply (sleep_after_every_failed_attempt throttled_web "Delhi" 3 2 []).
  - lia.
  - by vm_compute.
  - repeat split; eexists; split; reflexivity.
Defined.

(** * Further properties of the two routines *)

(** ** The comprehension of [get_nearby_pharmacies] *)

Lemma entries_returns_titled (results : list record) (es : list (string * string)) :
  entries results = Return es -> Forall titled results.
Proof.
  revert es. induction results as [|r rest IH]; intros es; [constructor|].
  cbn [entries]. unfold contains_key, getitem.
  destruct (r !! "href") as [href|] eqn:Hhref.
  - destruct (r !! "title") as [title|] eqn:Htitle; [|discriminate].
    destruct (entries rest) as [tl|] eqn:Hrest; [|discriminate].
    intros _. constructor; [|by eapply IH].
    unfold titled. rewrite Htitle. by eexists.
  - intros Hrest. constructor; [|by eapply IH].
    unfold titled. rewrite Hhref. by intros [? [=]].
Qed.

(** X14: the comprehension of line 105 returns exactly when every result with a
    link has a title, and then it is the titles and links of the results
    with a link, in the order of the search; results without a link are
    dropped. *)
Theorem entries_characterised (results : list record) (es : list (string * string)) :
  entries results = Return es <-> Forall titled results /\ es = omap listing results.
Proof.
  split.
  - intros He. pose proof (entries_returns_titled results es He) as Hall.
    split; [exact Hall|]. rewrite (entries_listing results Hall) in He. congruence.
  - intros [Hall ->]. by apply entries_listing.
Qed.

(** ** The retry loop of [get_nearby_pharmacies] *)

Section Retry.

Context (env : services).

(** What every run of the loop keeps, whatever the search service and the
    sleeps do. *)
Lemma for_attempts_footprint (query : string) (delay : Z) (attempts : list Z) :
  forall h : trace,
  exists (r : result (list (string * string))) (t : trace),
    for_attempts env query delay attempts h = (r, h ++ t)
    /\ Forall (fun s => s = (query, 5)) (searches t)
    /\ (length (searches t) <= length attempts)%nat
    /\ sleeps t `prefix_of` (pause delay <$> attempts)
    /\ fetches t = []
    /\ (attempts <> [] -> exists t', t = Search query 5 :: t').
Proof.
  induction attempts as [|a rest IH]; intros h.
  - exists (Return []), []. cbn [for_attempts]. unfold ret. rewrite app_nil_r.
    repeat split; [constructor|reflexivity|apply prefix_nil|done].
  - destruct (search_service env h query 5) as [results|e] eqn:Hs.
    + eexists _, [Search query 5]. split; [by apply attempt_answered|].
      repeat split; [by repeat constructor|cbn; lia|apply prefix_nil|by eexists].
    + destruct (is_rate_limit e) eqn:He.
      * destruct e as [msg| | | | | |]; try discriminate. cbn [is_rate_limit] in He.
        destruct (sleep_outcome env (delay * (a + 1))) as [[]|e'] eqn:Hsleep.
        -- destruct (IH (h ++ backoff_round query delay a))
             as (r & t & Hrun & Hq & Hn & Hp & Hf & _).
           exists r, (backoff_round query delay a ++ t).
           split.
           { rewrite attempt_slept; [|by exists msg|done].
             by rewrite Hrun, <- app_assoc. }
           unfold backoff_round. cbn [app searches sleeps fetches omap list_omap].
           fold (searches t) (sleeps t) (fetches t).
           repeat split.
           ++ by constructor.
           ++ cbn [length]. lia.
           ++ cbn [fmap list_fmap]. by apply prefix_cons.
           ++ exact Hf.
           ++ by eexists.
        -- eexists _, [Search query 5].
           split; [by apply attempt_sleep_refused; [exists msg|]|].
           repeat split; [by repeat constructor|cbn; lia|apply prefix_nil|by eexists].
      * eexists _, [Search query 5]. split; [by apply attempt_aborted with (e := e)|].
        repeat split; [by repeat constructor|cbn; lia|apply prefix_nil|by eexists].
Qed.

(** With pauses between 0 and 31 days the loop never raises. *)
Lemma for_attempts_returns (query : string) (delay : Z) (attempts : list Z) :
  Forall (fun a => 0 <= delay * (a + 1) <= portable_sleep_max) attempts ->
  forall h : trace,
  exists (out : list (string * string)) (h' : trace),
    for_attempts env query delay attempts h = (Return out, h').
Proof.
  intros Hall. induction Hall as [|a rest Ha _ IH]; intros h.
  - by eexists _, _.
  - destruct (search_service env h query 5) as [results|e] eqn:Hs.
    + eexists _, _. by apply attempt_answered.
    + destruct (is_rate_limit e) eqn:He.
      * destruct e as [msg| | | | | |]; try discriminate. cbn [is_rate_limit] in He.
        rewrite attempt_rate_limited; [apply IH|done|by exists msg].
      * eexists _, _. by apply attempt_aborted with (e := e).
Qed.

End Retry.

Lemma total_app (l1 l2 : list Z) : total (l1 ++ l2) = total l1 + total l2.
Proof. unfold total. induction l1 as [|d l1 IH]; cbn [app foldr] in *; lia. Qed.

Lemma total_nonneg (l : list Z) : Forall (fun d => 0 <= d) l -> 0 <= total l.
Proof. unfold total. induction 1; cbn [foldr] in *; lia. Qed.

Lemma total_prefix_le (l1 l2 : list Z) :
  Forall (fun d => 0 <= d) l2 -> l1 `prefix_of` l2 -> total l1 <= total l2.
Proof.
  intros Hall [k ->]. rewrite total_app.
  apply Forall_app in Hall as [_ Hk]. apply total_nonneg in Hk. lia.
Qed.

(** The pauses of [n] failed attempts add up to [delay * n * (n + 1) / 2]. *)
Lemma total_pause_range (delay n : Z) :
  0 <= n -> 2 * total (pause delay <$> range n) = delay * n * (n + 1).
Proof.
  revert n. apply natlike_ind.
  { unfold range. rewrite seqZ_nil by lia. unfold total. cbn [fmap list_fmap foldr]. lia. }
  intros n Hn IH. unfold Z.succ. rewrite range_succ by done.
  rewrite fmap_app, total_app. unfold total at 2. cbn [fmap list_fmap foldr].
  assert (pause delay n = delay * (n + 1)) as -> by reflexivity. nia.
Qed.

Lemma pause_range_nonneg (delay n : Z) :
  0 <= delay -> Forall (fun d => 0 <= d) (pause delay <$> range n).
Proof.
  intros Hdelay. apply Forall_fmap. eapply Forall_impl; [apply range_nonneg|].
  intros i Hi. unfold compose, pause. cbn beta in *. nia.
Qed.

(** The retry loop over [range n], with pauses between 0 and 31 days. *)
Lemma for_attempts_bounded (env : services) (query : string) (delay n : Z) (h : trace) :
  0 <= delay ->
  0 <= n ->
  delay * n <= portable_sleep_max ->
  exists (out : list (string * string)) (t : trace),
    for_attempts env query delay (range n) h = (Return out, h ++ t)
    /\ (length (searches t) <= Z.to_nat n)%nat
    /\ Forall (fun d => 0 <= d) (sleeps t)
    /\ 2 * total (sleeps t) <= delay * n * (n + 1)
    /\ fetches t = []
    /\ (0 < n -> exists t', t = Search query 5 :: t').
Proof.
  intros Hdelay Hn Hmax.
  destruct (for_attempts_footprint env query delay (range n) h)
    as (r & t & Hrun & _ & Hlen & Hp & Hf & Hfirst).
  destruct (for_attempts_returns env query delay (range n)
              (range_pauses_portable delay n Hdelay Hmax) h) as (out & h' & Hret).
  rewrite Hrun in Hret. injection Hret as -> _.
  exists out, t. split; [exact Hrun|].
  unfold range in Hlen. rewrite length_seqZ in Hlen.
  pose proof (pause_range_nonneg delay n Hdelay) as Hall.
  split; [exact Hlen|]. split; [|split; [|split; [exact Hf|]]].
  - destruct Hp as [k Hk]. rewrite Hk in Hall. by apply Forall_app in Hall as [? _].
  - rewrite <- total_pause_range by done.
    pose proof (total_prefix_le _ _ Hall Hp). lia.
  - intros Hpos. apply Hfirst. unfold range. rewrite seqZ_cons by lia. done.
Qed.

(** X1: with pauses that [time.sleep] can sleep (a delay that is not
    negative, and a last pause [delay * retries] of 31 days at most),
    [get_nearby_pharmacies] returns a list whatever the search service does,
    on every attempt: no error of the search and no malformed result makes
    it raise. *)
Theorem locator_never_raises (env : services) (location : string) (retries delay : Z)
    (h : trace) :
  0 <= delay ->
  delay * retries <= portable_sleep_max ->
  exists (out : list (string * string)) (h' : trace),
    get_nearby_pharmacies env location retries delay h = (Return out, h').
Proof.
  intros Hdelay Hmax. unfold get_nearby_pharmacies.
  by apply for_attempts_returns, range_pauses_portable.
Qed.

Lemma locator_never_raises_witness :
  exists (out : list (string * string)) (h' : trace),
    get_nearby_pharmacies untitled_web "Delhi" 3 2 [] = (Return out, h').
Proof.
  apply (locator_never_raises untitled_web "Delhi" 3 2 []); [lia|by vm_compute].
Defined.

(** X2: whatever the search service does, a run of [get_nearby_pharmacies]
    only extends the trace, makes at most [retries] searches (none when
    [retries] is not positive), every one with the query
    ["pharmacies near " + location] and 5 results at most, fetches no page,
    and its sleeps are the first ones of [delay * 1], [delay * 2], ...,
    [delay * retries]. *)
Theorem locator_footprint (env : services) (location : string) (retries delay : Z)
    (h : trace) :
  exists (r : result (list (string * string))) (t : trace),
    get_nearby_pharmacies env location retries delay h = (r, h ++ t)
    /\ Forall (fun s => s = ("pharmacies near " +:+ location, 5)) (searches t)
    /\ (length (searches t) <= Z.to_nat retries)%nat
    /\ sleeps t `prefix_of` (pause delay <$> range retries)
    /\ fetches t = [].
Proof.
  unfold get_nearby_pharmacies.
  destruct (for_attempts_footprint env ("pharmacies near " +:+ location) delay
              (range retries) h) as (r & t & Hrun & Hq & Hn & Hp & Hf & _).
  exists r, t. unfold range in Hn. rewrite length_seqZ in Hn. done.
Qed.

(** X3: with a delay and a number of retries that are not negative, and a
    last pause [delay * retries] of 31 days at most, one call of
    [get_nearby_pharmacies] returns and sleeps
    [delay * retries * (retries + 1) / 2] in total at most (12 seconds with
    the defaults 3 and 2); every single sleep is not negative. *)
Theorem locator_total_sleep_bound (env : services) (location : string)
    (retries delay : Z) (h : trace) :
  0 <= delay ->
  0 <= retries ->
  delay * retries <= portable_sleep_max ->
  exists (out : list (string * string)) (t : trace),
    get_nearby_pharmacies env location retries delay h = (Return out, h ++ t)
    /\ Forall (fun d => 0 <= d) (sleeps t)
    /\ 2 * total (sleeps t) <= delay * retries * (retries + 1).
Proof.
  intros Hdelay Hretries Hmax.
  destruct (for_attempts_bounded env ("pharmacies near " +:+ location) delay retries h
              Hdelay Hretries Hmax) as (out & t & Hrun & _ & Hpos & Hsum & _).
  by exists out, t.
Qed.

Lemma locator_total_sleep_bound_witness :
  exists (out : list (string * string)) (t : trace),
    get_nearby_pharmacies throttled_web "Delhi" 3 2 [] = (Return out, [] ++ t)
    /\ Forall (fun d => 0 <= d) (sleeps t)
    /\ 2 * total (sleeps t) <= 2 * 3 * (3 + 1).
Proof.
  apply (locator_total_sleep_bound throttled_web "Delhi" 3 2 []);
    [lia|lia|by vm_compute].
Defined.

(** X4: with a negative delay that [time.sleep] can convert (of at most
    [pytime_max_secs] seconds in absolute value), a rate-limit error on the
    first attempt makes [get_nearby_pharmacies] raise [ValueError]:
    [time.sleep] rejects the negative duration inside the [except] clause,
    after one search and no sleep. *)
Theorem negative_delay_raises (env : services) (location : string) (retries delay : Z)
    (h : trace) :
  1 <= retries ->
  - pytime_max_secs <= delay < 0 ->
  rate_limited env h ("pharmacies near " +:+ location) ->
  get_nearby_pharmacies env location retries delay h
  = (Raise (ValueError "sleep length must be non-negative"),
     h ++ [Search ("pharmacies near " +:+ location) 5]).
Proof.
  intros Hretries Hdelay Hlimited.
  unfold get_nearby_pharmacies, range. rewrite seqZ_cons by lia.
  apply attempt_sleep_refused; [done|].
  apply sleep_outcome_negative. lia.
Qed.

Lemma negative_delay_raises_witness :
  get_nearby_pharmacies throttled_web "Delhi" 3 (-2) []
  = (Raise (ValueError "sleep length must be non-negative"),
     [] ++ [Search ("pharmacies near " +:+ "Delhi") 5]).
Proof.
  apply (negative_delay_raises throttled_web "Delhi" 3 (-2) []).
  - lia.
  - by vm_compute.
  - eexists. split; reflexivity.
Defined.

(** X20: with a delay beyond [pytime_max_secs] seconds, of either sign, a
    rate-limit error on the first attempt makes [get_nearby_pharmacies]
    raise [OverflowError]: [time.sleep] cannot convert the duration, inside
    the [except] clause, after one search and no sleep. *)
Theorem oversized_delay_raises (env : services) (location : string) (retries delay : Z)
    (h : trace) :
  1 <= retries ->
  delay < - pytime_max_secs \/ pytime_max_secs < delay ->
  rate_limited env h ("pharmacies near " +:+ location) ->
  exists msg : string,
    get_nearby_pharmacies env location retries delay h
    = (Raise (OverflowError msg), h ++ [Search ("pharmacies near " +:+ location) 5]).
Proof.
  intros Hretries Hdelay Hlimited. eexists.
  unfold get_nearby_pharmacies, range. rewrite seqZ_cons by lia.
  apply attempt_sleep_refused; [done|].
  apply sleep_outcome_overflow. lia.
Qed.

Lemma oversized_delay_raises_witness :
  exists msg : string,
    get_nearby_pharmacies throttled_web "Delhi" 3 10000000000 []
    = (Raise (OverflowError msg), [] ++ [Search ("pharmacies near " +:+ "Delhi") 5]).
Proof.
  apply (oversized_delay_raises throttled_web "Delhi" 3 10000000000 []).
  - lia.
  - right. by vm_compute.
  - eexists. split; reflexivity.
Defined.

(** X5: when the first search is answered, [get_nearby_pharmacies] returns
    at once, for every delay and every positive number of retries: one
    search, no sleep, and the result is the value of the comprehension, the
    empty list when the comprehension raises. *)
Theorem first_answer_returned (env : services) (location : string) (retries delay : Z)
    (h : trace) (results : list record) :
  1 <= retries ->
  search_service env h ("pharmacies near " +:+ location) 5 = Return results ->
  get_nearby_pharmacies env location retries delay h
  = (Return (if decide (Forall titled results) then omap listing results else []),
     h ++ [Search ("pharmacies near " +:+ location) 5]).
Proof.
  intros Hretries Hs.
  unfold get_nearby_pharmacies, range. rewrite seqZ_cons by lia.
  rewrite (attempt_answered env _ delay 0 _ h results Hs).
  do 2 f_equal. destruct (decide (Forall titled results)) as [Hall|Hnot].
  - by rewrite (entries_listing results Hall).
  - destruct (entries results) as [es|e] eqn:He; [|reflexivity].
    apply entries_returns_titled in He. contradiction.
Qed.

Lemma first_answer_returned_witness :
  get_nearby_pharmacies flu_web "Delhi" 1 (-7) []
  = (Return (if decide (Forall titled flu_results) then omap listing flu_results else []),
     [] ++ [Search ("pharmacies near " +:+ "Delhi") 5]).
Proof.
  apply (first_answer_returned flu_web "Delhi" 1 (-7) [] flu_results).
  - lia.
  - reflexivity.
Defined.

(** X6: with a number of retries that is zero or negative the loop body
    never runs: [get_nearby_pharmacies] returns the empty list without any
    search. *)
Theorem no_retries_no_search (env : services) (location : string) (retries delay : Z)
    (h : trace) :
  retries <= 0 ->
  get_nearby_pharmacies env location retries delay h = (Return [], h).
Proof.
  intros Hretries. unfold get_nearby_pharmacies, range.
  by rewrite seqZ_nil by done.
Qed.

Lemma no_retries_no_search_witness :
  get_nearby_pharmacies flu_web "Delhi" 0 2 [] = (Return [], []).
Proof. apply (no_retries_no_search flu_web "Delhi" 0 2 []). lia. Defined.

(** ** More on slices and joins *)

Lemma append_length (s1 s2 : string) :
  String.length (s1 +:+ s2) = (String.length s1 + String.length s2)%nat.
Proof.
  induction s1 as [|c s1 IH]; [reflexivity|].
  change (String c s1 +:+ s2) with (String c (s1 +:+ s2)).
  cbn [String.length]. by rewrite IH.
Qed.

Lemma slice_to_prefix (n : nat) (s : string) : String.prefix (slice_to n s) s = true.
Proof.
  unfold slice_to. revert s. induction n as [|n IH]; intros [|c s]; cbn; try done.
  destruct (Ascii.ascii_dec c c); [apply IH|done].
Qed.

Lemma slice_to_length_min (n : nat) (s : string) :
  String.length (slice_to n s) = Nat.min n (String.length s).
Proof.
  unfold slice_to. revert s. induction n as [|n IH]; intros [|c s]; cbn; try done.
  by rewrite IH.
Qed.

Lemma slice_to_short (n : nat) (s : string) :
  (String.length s <= n)%nat -> slice_to n s = s.
Proof.
  unfold slice_to. revert s. induction n as [|n IH]; intros [|c s]; cbn; try done.
  - lia.
  - intros Hlen. rewrite IH; [done|lia].
Qed.

Lemma slice_to_nonempty (n : nat) (s : string) :
  (0 < n)%nat -> s <> "" -> slice_to n s <> "".
Proof. unfold slice_to. destruct n, s; cbn; (done || lia). Qed.

Lemma join_nonempty (sep d : string) (ds : list string) :
  d <> "" -> join sep (d :: ds) <> "".
Proof.
  destruct d as [|c d]; [done|]. intros _.
  unfold join. destruct ds as [|d' ds]; [done|].
  change (String.concat sep (String c d :: d' :: ds))
    with (String c (d +:+ sep +:+ String.concat sep (d' :: ds))).
  done.
Qed.

Lemma join_length_le (sep : string) (bound : nat) (ds : list string) :
  Forall (fun d => (String.length d <= bound)%nat) ds ->
  (String.length (join sep ds) <= (bound + String.length sep) * length ds)%nat.
Proof.
  unfold join. induction 1 as [|d ds Hd Hds IH]; [cbn; lia|].
  destruct ds as [|d' ds].
  - cbn. lia.
  - change (String.concat sep (d :: d' :: ds))
      with (d +:+ sep +:+ String.concat sep (d' :: ds)).
    rewrite !append_length. cbn [length] in *. lia.
Qed.

(** ** More on the evidence retriever *)

Lemma links_length (results : list record) : (length (links results) <= length results)%nat.
Proof.
  unfold links. induction results as [|r rest IH]; cbn [omap list_omap length]; [lia|].
  destruct (r !! "href"); cbn [length]; lia.
Qed.

Section Bundle.

Context (env : services).

Lemma spec_trace_fetches (results : list record) :
  forall h : trace,
    spec_trace results h = h ++ ((fun url => Get url 5) <$> links results).
Proof.
  unfold spec_trace, links.
  induction results as [|res rest IH]; intros h; cbn [foldl omap list_omap].
  - by rewrite app_nil_r.
  - rewrite IH. unfold spec_after.
    destruct (res !! "href") as [url|]; [|done].
    by rewrite <- app_assoc.
Qed.

Lemma spec_excerpts_sources (results : list record) :
  forall h : trace, (spec_excerpts env results h).*2 `sublist_of` links results.
Proof.
  unfold links.
  induction results as [|res rest IH]; intros h; cbn [spec_excerpts omap list_omap].
  - constructor.
  - specialize (IH (spec_after h res)). unfold spec_extract.
    destruct (res !! "href") as [url|]; [|exact IH].
    destruct (http_fetch env h url 5) as [page|]; [|by constructor].
    destruct (html_paragraphs env page) as [ps|]; [|by constructor].
    destruct (truthy (join " " ps)); by constructor.
Qed.

Lemma spec_excerpts_nonempty (results : list record) :
  forall h : trace, Forall (fun ex => ex.1 <> "") (spec_excerpts env results h).
Proof.
  induction results as [|res rest IH]; intros h; cbn [spec_excerpts]; [constructor|].
  destruct (spec_extract env h res) as [[d u]|] eqn:E; [|apply IH].
  constructor; [|apply IH].
  unfold spec_extract in E.
  destruct (res !! "href") as [url|]; [|discriminate].
  destruct (http_fetch env h url 5) as [page|]; [|discriminate].
  destruct (html_paragraphs env page) as [ps|]; [|discriminate].
  destruct (truthy _) eqn:Ht; [|discriminate].
  injection E as <- _. apply slice_to_nonempty; [lia|by apply truthy_nonempty].
Qed.

(** The whole run when the search is answered. *)
Lemma retrieve_medical_data_spec (query : string) (h : trace) (results : list record) :
  search_service env h (query +:+ site_filter) 3 = Return results ->
  retrieve_medical_data env query h
  = (Return (join blank_line
               (spec_excerpts env results (h ++ [Search (query +:+ site_filter) 3])).*1,
             (spec_excerpts env results (h ++ [Search (query +:+ site_filter) 3])).*2),
     h ++ Search (query +:+ site_filter) 3 :: ((fun url => Get url 5) <$> links results)).
Proof.
  intros Hs. unfold retrieve_medical_data, bind at 1.
  rewrite (retrieve_docs_spec env query h results Hs). cbn zeta.
  rewrite spec_trace_fetches, <- app_assoc. reflexivity.
Qed.

End Bundle.

(** X7: [retrieve_medical_data] raises exactly when its one search call
    raises: it then raises the error of the search, after that search and
    without any page fetch; no failure of a page can make it raise. *)
Theorem retrieve_raises_iff_search_raises (env : services) (query : string)
    (h : trace) (e : exn) :
  ((exists h', retrieve_medical_data env query h = (Raise e, h'))
   <-> search_service env h (query +:+ site_filter) 3 = Raise e)
  /\ (forall h', retrieve_medical_data env query h = (Raise e, h') ->
      h' = h ++ [Search (query +:+ site_filter) 3]).
Proof.
  destruct (search_service env h (query +:+ site_filter) 3) as [results|e'] eqn:Hs.
  - rewrite (retrieve_medical_data_spec env query h results Hs).
    split; [split|]; [intros [h' [=]]|discriminate|intros h' [=]].
  - assert (retrieve_medical_data env query h
            = (Raise e', h ++ [Search (query +:+ site_filter) 3])) as ->.
    { unfold retrieve_medical_data, retrieve_docs, bind, ddgs_text. by rewrite Hs. }
    split; [split|].
    + by intros [h' [= ->]].
    + intros [= ->]. by eexists.
    + by intros h' [= _ <-].
Qed.

(** X8: in every run in which the search is answered, the evidence text is
    empty exactly when the list of sources is empty: a caller that finds a
    text that is not empty always has a source to show for it. *)
Theorem text_empty_iff_no_source (env : services) (query : string) (h : trace)
    (results : list record) :
  search_service env h (query +:+ site_filter) 3 = Return results ->
  exists (text : string) (sources : list string) (h' : trace),
    retrieve_medical_data env query h = (Return (text, sources), h')
    /\ (text = "" <-> sources = []).
Proof.
  intros Hs. rewrite (retrieve_medical_data_spec env query h results Hs).
  eexists _, _, _. split; [reflexivity|].
  pose proof (spec_excerpts_nonempty env results
                (h ++ [Search (query +:+ site_filter) 3])) as Hne.
  destruct (spec_excerpts env results _) as [|[d u] exs]; [done|].
  cbn [fmap list_fmap fst snd]. apply Forall_cons in Hne as [Hd _].
  split; [|done]. intros Hj. by apply join_nonempty in Hj.
Qed.

Lemma text_empty_iff_no_source_witness :
  exists (text : string) (sources : list string) (h' : trace),
    retrieve_medical_data flaky_web "flu" [] = (Return (text, sources), h')
    /\ (text = "" <-> sources = []).
Proof.
  apply (text_empty_iff_no_source flaky_web "flu" [] flu_results). reflexivity.
Defined.

(** X9: when the search is answered, a run of [retrieve_medical_data] makes
    that one search, for the query followed by the site filter and 3
    results at most, and then exactly one page fetch, with timeout 5, for
    every result that has a link, in the order of the results and whether
    or not earlier pages failed; it never sleeps. *)
Theorem one_fetch_per_link (env : services) (query : string) (h : trace)
    (results : list record) :
  search_service env h (query +:+ site_filter) 3 = Return results ->
  exists (out : string * list string) (t : trace),
    retrieve_medical_data env query h = (Return out, h ++ t)
    /\ searches t = [(query +:+ site_filter, 3)]
    /\ fetches t = (fun url => (url, 5)) <$> links results
    /\ sleeps t = [].
Proof.
  intros Hs. rewrite (retrieve_medical_data_spec env query h results Hs).
  eexists _, _. split; [reflexivity|].
  cbn [searches fetches sleeps omap list_omap].
  generalize (links results) as urls.
  induction urls as [|url urls (IH1 & IH2 & IH3)]; [done|].
  cbn [fmap list_fmap omap list_omap] in *.
  by rewrite IH1, IH2, IH3.
Qed.

Lemma one_fetch_per_link_witness :
  exists (out : string * list string) (t : trace),
    retrieve_medical_data flaky_web "flu" [] = (Return out, [] ++ t)
    /\ searches t = [("flu" +:+ site_filter, 3)]
    /\ fetches t = (fun url => (url, 5)) <$> links flu_results
    /\ sleeps t = [].
Proof.
  apply (one_fetch_per_link flaky_web "flu" [] flu_results). reflexivity.
Defined.

(** X10: every source returned by [retrieve_medical_data] is the link of a
    search result, and the sources keep the order of the results (they are
    a sublist of the links); so there are at most as many sources as
    results. *)
Theorem sources_are_links (env : services) (query : string) (h : trace)
    (results : list record) :
  search_service env h (query +:+ site_filter) 3 = Return results ->
  exists (text : string) (sources : list string) (h' : trace),
    retrieve_medical_data env query h = (Return (text, sources), h')
    /\ sources `sublist_of` links results
    /\ (length sources <= length results)%nat.
Proof.
  intros Hs. rewrite (retrieve_medical_data_spec env query h results Hs).
  eexists _, _, _. split; [reflexivity|].
  pose proof (spec_excerpts_sources env results
                (h ++ [Search (query +:+ site_filter) 3])) as Hsub.
  split; [exact Hsub|].
  apply sublist_length in Hsub. pose proof (links_length results). lia.
Qed.

Lemma sources_are_links_witness :
  exists (text : string) (sources : list string) (h' : trace),
    retrieve_medical_data flaky_web "flu" [] = (Return (text, sources), h')
    /\ sources `sublist_of` links flu_results
    /\ (length sources <= length flu_results)%nat.
Proof.
  apply (sources_are_links flaky_web "flu" [] flu_results). reflexivity.
Defined.

(** X11: the evidence text has at most 2002 characters for each source:
    2000 for the excerpt and 2 for the separator; with the three results
    the search is asked for, that is at most 6006 characters. *)
Theorem evidence_text_length_bound (env : services) (query : string) (h : trace)
    (results : list record) :
  search_service env h (query +:+ site_filter) 3 = Return results ->
  exists (text : string) (sources : list string) (h' : trace),
    retrieve_medical_data env query h = (Return (text, sources), h')
    /\ (String.length text <= 2002 * length sources)%nat
    /\ (String.length text <= 2002 * length results)%nat.
Proof.
  intros Hs. rewrite (retrieve_medical_data_spec env query h results Hs).
  eexists _, _, _. split; [reflexivity|].
  set (exs := spec_excerpts env results (h ++ [Search (query +:+ site_filter) 3])).
  pose proof (spec_excerpts_length env results
                (h ++ [Search (query +:+ site_filter) 3])) as Hall. fold exs in Hall.
  pose proof (spec_excerpts_sources env results
                (h ++ [Search (query +:+ site_filter) 3])) as Hsub. fold exs in Hsub.
  apply sublist_length in Hsub. pose proof (links_length results) as Hlinks.
  assert (Forall (fun d => (String.length d <= 2000)%nat) exs.*1) as Hdocs.
  { apply Forall_fmap. eapply Forall_impl; [exact Hall|]. by intros [d u]. }
  pose proof (join_length_le blank_line 2000 _ Hdocs) as Hjoin.
  rewrite !length_fmap in *.
  change (String.length blank_line) with 2%nat in Hjoin.
  change (2000 + 2)%nat with 2002%nat in Hjoin. lia.
Qed.

Lemma evidence_text_length_bound_witness :
  exists (text : string) (sources : list string) (h' : trace),
    retrieve_medical_data flu_web "flu" [] = (Return (text, sources), h')
    /\ (String.length text <= 2002 * length sources)%nat
    /\ (String.length text <= 2002 * length flu_results)%nat.
Proof.
  apply (evidence_text_length_bound flu_web "flu" [] flu_results). reflexivity.
Defined.

(** X12: when a result has a link, its page is fetched and the space-joined
    text of its paragraphs is not empty, the loop appends one excerpt and
    the link: the excerpt is the beginning of that text, of length
    [min 2000 (len text)], so a text of at most 2000 characters is kept
    whole; the earlier excerpts and sources are untouched. *)
Theorem excerpt_is_page_prefix (env : services) (res : record)
    (docs sources : list string) (h : trace) (url page : string) (ps : list string) :
  res !! "href" = Some url ->
  http_fetch env h url 5 = Return page ->
  html_paragraphs env page = Return ps ->
  join " " ps <> "" ->
  exists d : string,
    visit_result env res (docs, sources) h
    = (Return (docs ++ [d], sources ++ [url]), h ++ [Get url 5])
    /\ String.prefix d (join " " ps) = true
    /\ String.length d = Nat.min 2000 (String.length (join " " ps))
    /\ ((String.length (join " " ps) <= 2000)%nat -> d = join " " ps).
Proof.
  intros Hhref Hfetch Hps Htext. apply truthy_nonempty in Htext.
  exists (slice_to 2000 (join " " ps)). split; [|split; [|split]].
  - rewrite visit_result_spec. unfold spec_extract, spec_after.
    by rewrite Hhref, Hfetch, Hps, Htext.
  - apply slice_to_prefix.
  - apply slice_to_length_min.
  - apply slice_to_short.
Qed.

Lemma excerpt_is_page_prefix_witness :
  exists d : string,
    visit_result flu_web flu_first ([], []) []
    = (Return ([] ++ [d], [] ++ ["https://www.mayoclinic.org/flu"]),
       [] ++ [Get "https://www.mayoclinic.org/flu" 5])
    /\ String.prefix d (join " " ["<p>https://www.mayoclinic.org/flu</p><p>rest</p>"; "rest"])
       = true
    /\ String.length d
       = Nat.min 2000
           (String.length (join " " ["<p>https://www.mayoclinic.org/flu</p><p>rest</p>"; "rest"]))
    /\ ((String.length (join " " ["<p>https://www.mayoclinic.org/flu</p><p>rest</p>"; "rest"])
         <= 2000)%nat ->
        d = join " " ["<p>https://www.mayoclinic.org/flu</p><p>rest</p>"; "rest"]).
Proof.
  apply (excerpt_is_page_prefix flu_web flu_first [] [] []
           "https://www.mayoclinic.org/flu"
           "<p>https://www.mayoclinic.org/flu</p><p>rest</p>").
  - reflexivity.
  - reflexivity.
  - reflexivity.
  - vm_compute. discriminate.
Defined.

(** X13: when the search is answered and no result yields an excerpt (no
    link, failed fetch, failed extraction or empty text, for each of them),
    [retrieve_medical_data] returns the empty text and the empty list of
    sources, after having tried every link. *)
Theorem no_extraction_empty_bundle (env : services) (query : string) (h : trace)
    (results : list record) :
  search_service env h (query +:+ site_filter) 3 = Return results ->
  zero_extractions env results (h ++ [Search (query +:+ site_filter) 3]) ->
  retrieve_medical_data env query h
  = (Return ("", []),
     h ++ Search (query +:+ site_filter) 3 :: ((fun url => Get url 5) <$> links results)).
Proof.
  intros Hs Hz. rewrite (retrieve_medical_data_spec env query h results Hs).
  by rewrite (zero_extractions_nil env _ _ Hz).
Qed.

Lemma no_extraction_empty_bundle_witness :
  retrieve_medical_data dead_links_web "flu" []
  = (Return ("", []),
     [] ++ Search ("flu" +:+ site_filter) 3
       :: ((fun url => Get url 5) <$> links flu_results)).
Proof.
  apply (no_extraction_empty_bundle dead_links_web "flu" [] flu_results).
  - reflexivity.
  - repeat split; reflexivity.
Defined.

(** ** The button action *)

Section Submit.

Context (env : services).
Context (chat_service : list string -> string -> reply).
Context (combined_prompt : string).

Lemma advise_run (rag_text : string) (rag_sources : list string) (condition : string)
    (s : session) :
  advise chat_service combined_prompt rag_text rag_sources condition s
  = (Return tt,
     {| world := world s;
        asked := asked s ++ [full_prompt combined_prompt rag_text condition];
        screen := screen s
                  ++ advice_outputs rag_sources
                       (chat_service (asked s)
                          (full_prompt combined_prompt rag_text condition)) |}).
Proof.
  unfold advise, app_bind, send_message, st_show, advice_outputs, app_ret.
  destruct (chat_service _ _) as [text|d|d]; cbn [world asked screen].
  - destruct rag_sources; cbn [world asked screen]; by rewrite <- ?app_assoc.
  - by rewrite <- app_assoc.
  - done.
Qed.

Lemma show_pharmacies_run (pharmacies : list (string * string)) :
  forall s : session,
    show_pharmacies pharmacies s
    = (Return tt,
       {| world := world s; asked := asked s;
          screen := screen s ++ ((fun p => Markdown (md_link p.1 p.2)) <$> pharmacies) |}).
Proof.
  induction pharmacies as [|[name link] rest IH]; intros [w a sc].
  - cbn. by rewrite app_nil_r.
  - cbn [show_pharmacies]. unfold app_bind, st_show. rewrite IH.
    cbn [world asked screen fmap list_fmap fst snd]. by rewrite <- app_assoc.
Qed.

Lemma find_pharmacies_run (location : string) (s : session) :
  location <> "" ->
  exists (pharmacies : list (string * string)) (t : trace),
    get_nearby_pharmacies env location 3 2 (world s)
    = (Return pharmacies, world s ++ Search ("pharmacies near " +:+ location) 5 :: t)
    /\ find_pharmacies env location s
       = (Return tt,
          {| world := world s ++ Search ("pharmacies near " +:+ location) 5 :: t;
             asked := asked s;
             screen := screen s ++ pharmacy_outputs pharmacies |})
    /\ (length (searches t) <= 2)%nat
    /\ total (sleeps t) <= 12
    /\ fetches t = [].
Proof.
  intros Hloc. apply truthy_nonempty in Hloc.
  destruct (for_attempts_bounded env ("pharmacies near " +:+ location) 2 3 (world s))
    as (pharmacies & t0 & Hrun & Hlen & _ & Hsum & Hf & Hfirst);
    [lia|lia|by vm_compute|].
  destruct Hfirst as [t ->]; [lia|].
  exists pharmacies, t. split; [exact Hrun|]. split; [|split; [|split]].
  - unfold find_pharmacies. rewrite Hloc. unfold app_bind, in_world.
    unfold get_nearby_pharmacies. rewrite Hrun.
    destruct pharmacies as [|p rest]; [reflexivity|].
    unfold st_show. rewrite show_pharmacies_run.
    cbn [world asked screen pharmacy_outputs]. by rewrite <- app_assoc.
  - cbn [searches omap list_omap length] in Hlen. fold (searches t) in Hlen.
    change (Z.to_nat 3) with 3%nat in Hlen. lia.
  - cbn [sleeps omap list_omap] in Hsum. fold (sleeps t) in Hsum. lia.
  - exact Hf.
Qed.

(** The pharmacy step, for every location. *)
Lemma find_pharmacies_total (location : string) (s : session) :
  exists (outs : list output) (t : trace),
    find_pharmacies env location s
    = (Return tt,
       {| world := world s ++ t; asked := asked s; screen := screen s ++ outs |})
    /\ (length (searches t) <= 3)%nat
    /\ total (sleeps t) <= 12
    /\ fetches t = []
    /\ (location = "" -> t = [] /\ outs = [])
    /\ (location <> "" ->
        exists t' pharmacies,
          t = Search ("pharmacies near " +:+ location) 5 :: t'
          /\ outs = pharmacy_outputs pharmacies).
Proof.
  destruct (decide (location = "")) as [->|Hloc].
  - exists [], []. destruct s as [w a sc]. cbn. rewrite !app_nil_r.
    repeat split; (done || lia).
  - destruct (find_pharmacies_run location s Hloc)
      as (pharmacies & t & _ & Hrun & Hlen & Hsum & Hf).
    eexists _, _. split; [exact Hrun|].
    cbn [searches sleeps fetches omap list_omap length].
    fold (searches t) (sleeps t) (fetches t).
    repeat split; (done || lia || by eexists _, _).
Qed.

Lemma gets_footprint (urls : list string) :
  searches ((fun url => Get url 5) <$> urls) = []
  /\ sleeps ((fun url => Get url 5) <$> urls) = [].
Proof. induction urls as [|url urls [IH1 IH2]]; [done|]. by cbn in *. Qed.

(** The action once the search for evidence is answered: what remains is
    the pharmacy step. *)
Lemma on_submit_answered (condition location : string) (s : session)
    (results : list record) :
  condition <> "" ->
  search_service env (world s) (condition +:+ site_filter) 3 = Return results ->
  on_submit env chat_service combined_prompt true condition location s
  = find_pharmacies env location
      {| world := world s ++ Search (condition +:+ site_filter) 3
                    :: ((fun url => Get url 5) <$> links results);
         asked :=
           (let exs := spec_excerpts env results
                         (world s ++ [Search (condition +:+ site_filter) 3]) in
            if truthy (join blank_line exs.*1)
            then asked s ++ [full_prompt combined_prompt (join blank_line exs.*1) condition]
            else asked s);
         screen :=
           (let exs := spec_excerpts env results
                         (world s ++ [Search (condition +:+ site_filter) 3]) in
            screen s ++
            if truthy (join blank_line exs.*1)
            then advice_outputs exs.*2
                   (chat_service (asked s)
                      (full_prompt combined_prompt (join blank_line exs.*1) condition))
            else [Warning no_data_warning]) |}.
Proof.
  intros Hcond Hs. apply truthy_nonempty in Hcond.
  unfold on_submit. rewrite Hcond. cbn [andb].
  unfold app_bind at 1, in_world.
  rewrite (retrieve_medical_data_spec env condition (world s) results Hs).
  cbn [fst snd] . cbn zeta.
  destruct (truthy (join blank_line _)).
  - unfold app_bind. rewrite advise_run. reflexivity.
  - unfold app_bind, st_show. reflexivity.
Qed.

End Submit.

(** X15: with a condition and an answered search, the button action always
    completes, and it sends a prompt to the model exactly when the evidence
    text is not empty: with an empty text nothing is sent and the warning
    "No medical data found" is rendered; otherwise one prompt is sent, made
    of the evidence text, the fixed instructions and the condition. *)
Theorem prompt_sent_iff_evidence (env : services)
    (chat_service : list string -> string -> reply) (combined_prompt : string)
    (condition location : string) (s : session) (results : list record) :
  condition <> "" ->
  search_service env (world s) (condition +:+ site_filter) 3 = Return results ->
  exists (text : string) (sources : list string) (h' : trace) (s' : session),
    retrieve_medical_data env condition (world s) = (Return (text, sources), h')
    /\ on_submit env chat_service combined_prompt true condition location s
       = (Return tt, s')
    /\ (text = "" ->
        asked s' = asked s
        /\ exists outs, screen s' = screen s ++ Warning no_data_warning :: outs)
    /\ (text <> "" ->
        asked s' = asked s ++ [full_prompt combined_prompt text condition]).
Proof.
  intros Hcond Hs.
  rewrite (on_submit_answered env chat_service combined_prompt condition location s
             results Hcond Hs).
  rewrite (retrieve_medical_data_spec env condition (world s) results Hs).
  match goal with
  | |- context [find_pharmacies env location ?s0] =>
      destruct (find_pharmacies_total env location s0) as (outs & t & Hrun & _)
  end.
  eexists _, _, _, _. split; [reflexivity|].
  split; [exact Hrun|]. cbn [asked screen]. cbn zeta. split.
  - intros ->. cbn [truthy]. split; [reflexivity|].
    exists outs. by rewrite <- app_assoc.
  - intros Htext. apply truthy_nonempty in Htext. by rewrite Htext.
Qed.

Lemma prompt_sent_iff_evidence_witness :
  exists (text : string) (sources : list string) (h' : trace) (s' : session),
    retrieve_medical_data flaky_web "flu" (world new_session) = (Return (text, sources), h')
    /\ on_submit flaky_web helpful_chat "Act as a doctor." true "flu" "Delhi" new_session
       = (Return tt, s')
    /\ (text = "" ->
        asked s' = asked new_session
        /\ exists outs, screen s' = screen new_session ++ Warning no_data_warning :: outs)
    /\ (text <> "" ->
        asked s' = asked new_session ++ [full_prompt "Act as a doctor." text "flu"]).
Proof.
  apply (prompt_sent_iff_evidence flaky_web helpful_chat "Act as a doctor." "flu" "Delhi"
           new_session flu_results).
  - discriminate.
  - reflexivity.
Defined.

(** X16: when evidence was found and the model answers, the screen shows,
    in this order, the advice heading, the answer, the sources heading and
    the list of sources as Markdown links: the sources are never missing
    under an answer, because a text that is not empty has a source. *)
Theorem advice_shown_with_sources (env : services)
    (chat_service : list string -> string -> reply) (combined_prompt : string)
    (condition location : string) (s : session) (text answer : string)
    (sources : list string) (h' : trace) :
  condition <> "" ->
  retrieve_medical_data env condition (world s) = (Return (text, sources), h') ->
  text <> "" ->
  chat_service (asked s) (full_prompt combined_prompt text condition) = Answer answer ->
  exists (outs : list output) (s' : session),
    on_submit env chat_service combined_prompt true condition location s = (Return tt, s')
    /\ sources <> []
    /\ screen s'
       = screen s
         ++ [Markdown advice_heading; Markdown answer; Markdown sources_heading;
             Markdown (join (String newline EmptyString)
                         ((fun url => md_link url url) <$> sources))]
         ++ outs.
Proof.
  intros Hcond Hrun Htext Hanswer.
  destruct (search_service env (world s) (condition +:+ site_filter) 3)
    as [results|e] eqn:Hs.
  2:{ unfold retrieve_medical_data, retrieve_docs, bind, ddgs_text in Hrun.
      rewrite Hs in Hrun. discriminate. }
  rewrite (on_submit_answered env chat_service combined_prompt condition location s
             results Hcond Hs).
  rewrite (retrieve_medical_data_spec env condition (world s) results Hs) in Hrun.
  injection Hrun as Htxt Hsrc _. cbn zeta. rewrite Htxt, Hsrc, Hanswer.
  pose proof Htext as Ht. apply truthy_nonempty in Ht. rewrite Ht.
  destruct (find_pharmacies_total env location
              {| world := world s ++ Search (condition +:+ site_filter) 3
                            :: ((fun url => Get url 5) <$> links results);
                 asked := asked s ++ [full_prompt combined_prompt text condition];
                 screen := screen s ++ advice_outputs sources (Answer answer) |})
    as (outs & t & Hfind & _).
  exists outs. eexists. split; [exact Hfind|].
  assert (sources <> []) as Hne.
  { intros ->. apply Htext. rewrite <- Htxt.
    destruct (spec_excerpts env results _) as [|ex exs]; [done|discriminate]. }
  split; [exact Hne|]. cbn [screen advice_outputs].
  destruct sources as [|u us]; [done|]. by rewrite <- !app_assoc.
Qed.

Lemma advice_shown_with_sources_witness :
  exists (outs : list output) (s' : session),
    on_submit flaky_web helpful_chat "Act as a doctor." true "flu" "" new_session
    = (Return tt, s')
    /\ ["https://www.mayoclinic.org/flu"] <> []
    /\ screen s'
       = screen new_session
         ++ [Markdown advice_heading; Markdown "Rest and drink fluids.";
             Markdown sources_heading;
             Markdown (join (String newline EmptyString)
                         ((fun url => md_link url url)
                            <$> ["https://www.mayoclinic.org/flu"]))]
         ++ outs.
Proof.
  apply (advice_shown_with_sources flaky_web helpful_chat "Act as a doctor." "flu" ""
           new_session "https://www.mayoclinic.org/flu rest" "Rest and drink fluids."
           ["https://www.mayoclinic.org/flu"]
           [Search ("flu" +:+ site_filter) 3; Get "https://www.mayoclinic.org/flu" 5;
            Get "https://medlineplus.gov/flu.html" 5; Get "https://www.who.int/influenza" 5]).
  - discriminate.
  - reflexivity.
  - discriminate.
  - reflexivity.
Defined.



(** X18: the button action raises exactly when the button is clicked with a
    condition and the search for evidence raises.  It then raises the error
    of that search right after it: nothing is rendered, no prompt is sent
    and the pharmacies are not searched, whatever the location. *)
Theorem submit_raises_iff (env : services)
    (chat_service : list string -> string -> reply) (combined_prompt : string)
    (clicked : bool) (condition location : string) (s : session) (e : exn) :
  ((exists s', on_submit env chat_service combined_prompt clicked condition location s
               = (Raise e, s'))
   <-> clicked = true /\ condition <> ""
       /\ search_service env (world s) (condition +:+ site_filter) 3 = Raise e)
  /\ (forall s', on_submit env chat_service combined_prompt clicked condition location s
                 = (Raise e, s') ->
      s' = {| world := world s ++ [Search (condition +:+ site_filter) 3];
              asked := asked s; screen := screen s |}).
Proof.
  destruct clicked.
  2:{ unfold on_submit. cbn [andb]. unfold app_ret.
      split; [split|]; [intros [s' [=]]|by intros [[=] _]|intros s' [=]]. }
  destruct (decide (condition = "")) as [->|Hcond].
  { unfold on_submit. cbn [andb truthy]. unfold app_ret.
    split; [split|]; [intros [s' [=]]|by intros (_ & ? & _)|intros s' [=]]. }
  destruct (search_service env (world s) (condition +:+ site_filter) 3)
    as [results|e'] eqn:Hs.
  - rewrite (on_submit_answered env chat_service combined_prompt condition location s
               results Hcond Hs).
    match goal with
    | |- context [find_pharmacies env location ?s0] =>
        destruct (find_pharmacies_total env location s0) as (outs & t & -> & _)
    end.
    split; [split|]; [intros [s' [=]]|by intros (_ & _ & [=])|intros s' [=]].
  - assert (on_submit env chat_service combined_prompt true condition location s
            = (Raise e', {| world := world s ++ [Search (condition +:+ site_filter) 3];
                            asked := asked s; screen := screen s |})) as ->.
    { pose proof Hcond as Ht. apply truthy_nonempty in Ht.
      unfold on_submit. rewrite Ht. cbn [andb].
      unfold app_bind, in_world, retrieve_medical_data, retrieve_docs, bind, ddgs_text.
      by rewrite Hs. }
    split; [split|].
    + by intros [s' [= ->]].
    + intros (_ & _ & [= ->]). by eexists.
    + by intros s' [= _ <-].
Qed.

(** X19: whatever the services and the model do, one run of the button
    action only adds to the trace, to the prompts and to the screen; it
    makes at most four searches (one for the evidence, at most three for
    the pharmacies), sleeps at most 12 seconds in total and sends at most
    one prompt; without a click or without a condition it changes nothing,
    even if a location is given. *)
Theorem submit_footprint (env : services)
    (chat_service : list string -> string -> reply) (combined_prompt : string)
    (clicked : bool) (condition location : string) (s : session) :
  exists (r : result unit) (s' : session) (t : trace),
    on_submit env chat_service combined_prompt clicked condition location s = (r, s')
    /\ world s' = world s ++ t
    /\ (length (searches t) <= 4)%nat
    /\ total (sleeps t) <= 12
    /\ asked s `prefix_of` asked s'
    /\ (length (asked s') <= length (asked s) + 1)%nat
    /\ screen s `prefix_of` screen s'
    /\ (clicked = false \/ condition = "" -> s' = s).
Proof.
  assert (forall s0 : session,
             exists t, world s0 = world s0 ++ t
                       /\ (length (searches t) <= 4)%nat /\ total (sleeps t) <= 12
                       /\ asked s0 `prefix_of` asked s0
                       /\ (length (asked s0) <= length (asked s0) + 1)%nat
                       /\ screen s0 `prefix_of` screen s0) as Hidle.
  { intros s0. exists []. rewrite app_nil_r. repeat split; (done || cbn; lia). }
  destruct clicked.
  2:{ destruct (Hidle s) as (t & H1 & H2 & H3 & H4 & H5 & H6).
      exists (Return tt), s, t. by repeat split. }
  destruct (decide (condition = "")) as [->|Hcond].
  { destruct (Hidle s) as (t & H1 & H2 & H3 & H4 & H5 & H6).
    exists (Return tt), s, t. by repeat split. }
  destruct (search_service env (world s) (condition +:+ site_filter) 3)
    as [results|e] eqn:Hs.
  - rewrite (on_submit_answered env chat_service combined_prompt condition location s
               results Hcond Hs).
    match goal with
    | |- context [find_pharmacies env location ?s0] =>
        destruct (find_pharmacies_total env location s0)
          as (outs & t & -> & Hlen & Hsum & _)
    end.
    destruct (gets_footprint (links results)) as [Hg1 Hg2].
    eexists _, _, (Search (condition +:+ site_filter) 3
                     :: ((fun url => Get url 5) <$> links results) ++ t).
    split; [reflexivity|]. cbn [world asked screen]. cbn zeta.
    split; [by rewrite <- app_assoc|].
    assert (searches (Search (condition +:+ site_filter) 3
                        :: ((fun url => Get url 5) <$> links results) ++ t)
            = (condition +:+ site_filter, 3) :: searches t) as ->.
    { cbn [searches omap list_omap]. fold (searches (((fun url => Get url 5) <$> links results) ++ t)).
      by rewrite searches_app, Hg1. }
    assert (sleeps (Search (condition +:+ site_filter) 3
                      :: ((fun url => Get url 5) <$> links results) ++ t)
            = sleeps t) as ->.
    { cbn [sleeps omap list_omap]. fold (sleeps (((fun url => Get url 5) <$> links results) ++ t)).
      by rewrite sleeps_app, Hg2. }
    split; [cbn [length]; lia|]. split; [exact Hsum|].
    destruct (truthy _).
    + repeat split; [by apply prefix_app_r|rewrite length_app; cbn; lia| |].
      * rewrite <- app_assoc. by apply prefix_app_r.
      * intros [[=]|?]; done.
    + repeat split; [done|lia| |].
      * rewrite <- app_assoc. by apply prefix_app_r.
      * intros [[=]|?]; done.
  - exists (Raise e),
      {| world := world s ++ [Search (condition +:+ site_filter) 3];
         asked := asked s; screen := screen s |},
      [Search (condition +:+ site_filter) 3].
    split.
    { pose proof Hcond as Ht. apply truthy_nonempty in Ht.
      unfold on_submit. rewrite Ht. cbn [andb].
      unfold app_bind, in_world, retrieve_medical_data, retrieve_docs, bind, ddgs_text.
      by rewrite Hs. }
    cbn [world asked screen]. repeat split; try done; cbn; try lia.
    intros [[=]|?]; done.
Qed.
